(** * LED position visualizer (diagnostics/visualize.py)

    A shallow embedding of the loader, the statistics printer, the cone
    outline helper, the two renderers and the command-line driver, with the
    properties of each stated against that embedding.

    Python values are modelled at the types the data model gives them:
    coordinates and confidences are binary64 floats (Rocq's primitive
    floats), counts are unbounded integers, flags are booleans.  Writing to
    standard output and calling into matplotlib are effects: every function
    that performs them returns the list of effects it performed, in order,
    together with either its result or the Python exception that ended it. *)

From Stdlib Require Import ZArith QArith Floats List Bool Lia.
From stdpp Require Import gmap strings list.

Set Warnings "-inexact-float,-register-all".
Set Default Proof Using "Type".

Open Scope string_scope.
Open Scope list_scope.
Open Scope Z_scope.

(** ** Exceptions *)

(** The ways a [ValueError] arises in this program. *)
Inductive value_error :=
| EmptySequence      (* min() / max() of an empty list *)
| ZeroStep           (* range() with a step of zero *)
| NegativeSamples    (* np.linspace with a negative sample count *)
| NonFiniteLimit     (* an axis limit that is NaN or infinite *)
| Unsupported.       (* raised inside matplotlib, e.g. an unknown format *)

Inductive exn :=
| KeyError (key : string)
| TypeError
| AttributeError
| IndexError
| ZeroDivisionError
| OverflowError
| OSError
| ValueError (why : value_error).

(** ** Effects *)

(** What [print] writes.  Each constructor is one call of [print]; the
    numbers are the values handed to the format specification. *)
Inductive text :=
| Rule                                   (* "="*60, with its blank line *)
| Heading                                (* LED POSITION STATISTICS *)
| TotalLeds (n : Z)
| TreeHeight (h : float)
| NumberOfCameras (n : Z)
| ObservedLine (n : Z) (percent : Q)
| PredictedLine (n : Z) (percent : Q)
| ConfidenceHeading
| ConfidenceMean (v : float)
| ConfidenceMin (v : float)
| ConfidenceMax (v : float)
| HighConfidence (count : Z) (percent : Q)
| SpatialHeading
| XRange (lo hi : float)
| YRange (lo hi : float)
| ZRange (lo hi : float)
| HeightRange (lo hi : float)
| AngleRange (lo hi : float)
| Loading (file : string)
| Loaded (n : nat)
| SavedVisualization (path : string)
| SavedProjections (path : string).

(** The axes a matplotlib call is made on: the single 3D axes of
    [visualize_3d], or one of the three panels of the projections. *)
Inductive axes := Ax3D | AxTop | AxSide | AxFront.

(** The [c=] argument of [scatter]. *)
Inductive colour :=
| Blue
| Red
| Viridis (values : list float).   (* cmap='viridis', vmin=0, vmax=1 *)

Inductive call :=
| figure (width height : Z)
| add_subplot_3d
| subplots (rows cols width height : Z)
| scatter3 (xs ys zs : list float) (c : colour) (s : Z) (alpha : float)
           (label : string)
| scatter2 (ax : axes) (xs ys : list float) (c : colour) (s : Z)
           (alpha : float) (label : option string)
| colorbar
| plot3 (xs ys zs : list float) (alpha linewidth : float)
| set_xlabel (ax : axes) (s : string)
| set_ylabel (ax : axes) (s : string)
| set_zlabel (s : string)
| set_title (ax : axes) (s : string)
| set_title_counts (total observed predicted : Z)
| suptitle (total : Z)
| legend (ax : axes)
| set_box_aspect
| axis_equal
| grid (ax : axes)
| set_xlim (lo hi : float)
| set_ylim (lo hi : float)
| set_zlim (lo hi : float)
| tight_layout
| savefig (path : string) (dpi : Z)
| show.

Inductive event :=
| stdout (t : text)
| pyplot (c : call).

(** ** The monad of effects and exceptions *)

Record io (A : Type) := Io { trace : list event; outcome : exn + A }.
Arguments Io {A} _ _.
Arguments trace {A} _.
Arguments outcome {A} _.

#[global] Instance io_ret : MRet io := λ A a, Io [] (inr a).

#[global] Instance io_bind : MBind io := λ A B k m,
  match outcome m with
  | inl e => Io (trace m) (inl e)
  | inr a => let r := k a in Io (trace m ++ trace r) (outcome r)
  end.

Definition emit (e : event) : io unit := Io [e] (inr tt).
Definition print (t : text) : io unit := emit (stdout t).
Definition plt (c : call) : io unit := emit (pyplot c).

(** A pure computation that may raise. *)
Definition lift {A} (r : exn + A) : io A := Io [] r.

(** The matplotlib calls of a trace, in order. *)
Definition rendering (tr : list event) : list call :=
  flat_map (λ e, match e with pyplot c => [c] | _ => [] end) tr.

(** The calls that lay the figure out, write it or show it go through the
    whole figure and the file system, and may raise: in [tight_layout] when
    the extent of the data overflows, in [savefig] on a path that cannot be
    written or a format that is not supported.  Whether one does is a
    parameter of the model, a function of the calls made before it and of
    the call itself. *)
Class Matplotlib := {
  mpl_raises : list call → call → option exn;
}.

(** [m], then the call [c]; when the call raises it leaves no effect. *)
Definition then_call `{Matplotlib} (m : io unit) (c : call) : io unit :=
  m;;
  match mpl_raises (rendering (trace m)) c with
  | Some e => lift (inl e)
  | None => plt c
  end.

(** [for v in l: body v] *)
Fixpoint for_ {A} (l : list A) (body : A → io unit) : io unit :=
  match l with
  | [] => mret tt
  | v :: l' => body v;; for_ l' body
  end.

(** ** Python and numpy primitives *)

(** Truth value of an optional string: [None] and [''] are false. *)
Definition truthy (s : option string) : bool :=
  match s with
  | None => false
  | Some "" => false
  | Some _ => true
  end.

(** The least magnitude that rounds (to nearest, ties to even) to a double
    of magnitude [2^1024], which a double cannot hold. *)
Definition float_overflow : Z := 2 ^ 1024 - 2 ^ 970.

(** Whether the quotient [a / b] rounds to a finite double. *)
Definition fits (a b : Z) : bool := Z.abs a <? float_overflow * Z.abs b.

(** [a / b] on two ints.  Python raises [ZeroDivisionError] on a zero
    divisor and [OverflowError] when the correctly rounded quotient is too
    large for a float; otherwise the quotient is kept here as the exact
    rational, which Python rounds to the nearest double to format it. *)
Definition truediv (a b : Z) : exn + Q :=
  if b =? 0 then inl ZeroDivisionError
  else if fits a b then inr (inject_Z a / inject_Z b)%Q
  else inl OverflowError.

(** [range(start, stop, step)], its length computed as CPython does. *)
Definition range (start stop step : Z) : exn + list Z :=
  if step =? 0 then inl (ValueError ZeroStep)
  else
    let len :=
      if 0 <? step
      then (if start <? stop then 1 + (stop - 1 - start) / step else 0)
      else (if stop <? start then 1 + (start - 1 - stop) / (- step) else 0) in
    inr (map (λ k, start + Z.of_nat k * step) (seq 0 (Z.to_nat len))).

(** The float of an int (exact below 2^53). *)
Definition float_of_Z (n : Z) : float :=
  if n <? 0 then (- PrimFloat.of_uint63 (Uint63.of_Z (- n)))%float
  else PrimFloat.of_uint63 (Uint63.of_Z n).

(** The builtin [min] and [max] over a list of floats: the first item, then
    every later item that compares strictly below (above) the current one
    replaces it. *)
Definition min_ (l : list float) : exn + float :=
  match l with
  | [] => inl (ValueError EmptySequence)
  | v :: l' => inr (fold_left (λ m w, if (w <? m)%float then w else m) l' v)
  end.

Definition max_ (l : list float) : exn + float :=
  match l with
  | [] => inl (ValueError EmptySequence)
  | v :: l' => inr (fold_left (λ m w, if (m <? w)%float then w else m) l' v)
  end.

(** [a[i]] on a one-dimensional array: a negative index counts from the
    end, an index outside the array raises. *)
Definition getitem (a : list float) (i : Z) : exn + float :=
  let n := Z.of_nat (length a) in
  let j := if i <? 0 then i + n else i in
  if (j <? 0) || (n <=? j) then inl IndexError
  else match a !! Z.to_nat j with
       | Some v => inr v
       | None => inl IndexError
       end.

(** Whether a float is neither NaN nor infinite. *)
Definition is_finite (v : float) : bool :=
  negb (PrimFloat.is_nan v || PrimFloat.is_infinity v).

(** [ax.set_xlim([lo, hi])] and its like: matplotlib raises [ValueError]
    on a limit that is NaN or infinite, and sets nothing. *)
Definition set_lim (lim : float → float → call) (lo hi : float) : io unit :=
  if is_finite lo && is_finite hi then plt (lim lo hi)
  else lift (inl (ValueError NonFiniteLimit)).

(** [np.pi] *)
Definition np_pi : float := 3.141592653589793%float.

(** [np.linspace(start, stop, num)] with the endpoint included: [num]
    samples [i * step + start] with [step = (stop - start) / (num - 1)],
    the last one then overwritten with [stop] itself. *)
Definition np_linspace (start stop : float) (num : Z) : exn + list float :=
  if num <? 0 then inl (ValueError NegativeSamples)
  else
    let div := num - 1 in
    let delta := (stop - start)%float in
    let y := map (λ i, float_of_Z (Z.of_nat i)) (seq 0 (Z.to_nat num)) in
    let y :=
      if 0 <? div then
        let step := (delta / float_of_Z div)%float in
        if (step =? 0)%float
        then map (λ v, (v / float_of_Z div * delta)%float) y
        else map (λ v, (v * step)%float) y
      else map (λ v, (v * delta)%float) y in
    let y := map (λ v, (v + start)%float) y in
    inr (if 1 <? num then <[(length y - 1)%nat := stop]> y else y).

(** The numpy reductions and elementwise functions the program calls are
    parameters of the model. *)
Class NumpyStats := {
  np_mean : list float → float;
  np_min : list float → float;
  np_max : list float → float;
}.

Class NumpyTrig := {
  np_cos : float → float;
  np_sin : float → float;
}.

#[global] Instance exn_ret : MRet (sum exn) := λ A a, inr a.

#[global] Instance exn_bind : MBind (sum exn) := λ A B k m,
  match m with
  | inl e => inl e
  | inr a => k a
  end.

(** ** The input document *)

(** A parsed JSON value, as [json.load] returns it: an object is a dict. *)
Inductive json :=
| JNull
| JBool (b : bool)
| JInt (n : Z)
| JFloat (v : float)
| JStr (s : string)
| JArr (items : list json)
| JObj (members : gmap string json).

(** [data[key]] with a string key: only a dict accepts it, and raises
    [KeyError] when the key is absent. *)
Definition subscript (data : json) (key : string) : exn + json :=
  match data with
  | JObj members =>
      match members !! key with
      | Some v => inr v
      | None => inl (KeyError key)
      end
  | _ => inl TypeError
  end.

(** [data.get(key, default)] *)
Definition get (data : json) (key : string) (default : json) : exn + json :=
  match data with
  | JObj members =>
      match members !! key with
      | Some v => inr v
      | None => inr default
      end
  | _ => inl AttributeError
  end.

(** ** The loader *)

(** [load_led_positions], from the document [json.load] produced on. *)
Definition load_led_positions (data : json)
  : exn + (json * gmap string json) :=
  positions ← subscript data "positions";
  total_leds ← subscript data "total_leds";
  tree_height ← subscript data "tree_height";
  num_cameras ← get data "num_cameras" (JInt 0);
  num_observed ← get data "num_observed" (JInt 0);
  num_predicted ← get data "num_predicted" (JInt 0);
  let metadata : gmap string json :=
    <["total_leds" := total_leds]>
    (<["tree_height" := tree_height]>
    (<["num_cameras" := num_cameras]>
    (<["num_observed" := num_observed]>
    (<["num_predicted" := num_predicted]> ∅)))) in
  mret (positions, metadata).

(** ** The data model *)

(** One record of [positions], and the metadata, at the types section 3 of
    the specification gives their fields. *)
Module Position.
Record t := Make {
  x : float;
  y : float;
  z : float;
  height : float;
  angle : float;
  confidence : float;
  predicted : bool;
}.
End Position.

Module Metadata.
Record t := Make {
  total_leds : Z;
  tree_height : float;
  num_cameras : Z;
  num_observed : Z;
  num_predicted : Z;
}.
End Metadata.

(** [[p for p in positions if not p['predicted']]] and
    [[p for p in positions if p['predicted']]] *)
Definition observed_of (positions : list Position.t) : list Position.t :=
  List.filter (λ p, negb (Position.predicted p)) positions.

Definition predicted_of (positions : list Position.t) : list Position.t :=
  List.filter (λ p, Position.predicted p) positions.

(** ** The statistics printer *)

(** [sum(1 for c in confidences if c > 0.8)] *)
Definition high_confidence (confidences : list float) : Z :=
  Z.of_nat (length (List.filter (λ c, (0.8 <? c)%float) confidences)).

Definition print_range (line : float → float → text) (values : list float)
  : io unit :=
  lo ← lift (min_ values);
  hi ← lift (max_ values);
  print (line lo hi).

Definition print_statistics `{NumpyStats}
    (positions : list Position.t) (metadata : Metadata.t) : io unit :=
  print Rule;;
  print Heading;;
  print Rule;;
  print (TotalLeds (Metadata.total_leds metadata));;
  print (TreeHeight (Metadata.tree_height metadata));;
  (if negb (Metadata.num_cameras metadata =? 0)
   then print (NumberOfCameras (Metadata.num_cameras metadata))
   else mret tt);;
  percent ← lift (truediv (100 * Metadata.num_observed metadata)
                          (Metadata.total_leds metadata));
  print (ObservedLine (Metadata.num_observed metadata) percent);;
  percent ← lift (truediv (100 * Metadata.num_predicted metadata)
                          (Metadata.total_leds metadata));
  print (PredictedLine (Metadata.num_predicted metadata) percent);;
  let observed := observed_of positions in
  (match observed with
   | _ :: _ =>
       let confidences := map Position.confidence observed in
       print ConfidenceHeading;;
       print (ConfidenceMean (np_mean confidences));;
       print (ConfidenceMin (np_min confidences));;
       print (ConfidenceMax (np_max confidences));;
       percent ← lift (truediv (100 * high_confidence confidences)
                               (Z.of_nat (length confidences)));
       print (HighConfidence (high_confidence confidences) percent)
   | [] => mret tt
   end);;
  let x := map Position.x positions in
  let y := map Position.y positions in
  let z := map Position.z positions in
  let heights := map Position.height positions in
  print SpatialHeading;;
  print_range XRange x;;
  print_range YRange y;;
  print_range ZRange z;;
  print_range HeightRange heights;;
  let angles := map Position.angle positions in
  print_range AngleRange angles;;
  print Rule.

(** ** The cone outline *)

(** The default of [num_points]. *)
Definition default_num_points : Z := 50.

Definition draw_cone_outline `{NumpyTrig} (height : float) (num_points : Z)
  : io unit :=
  let base_radius := (height * 0.25)%float in
  let top_radius := (height * 0.025)%float in
  theta ← lift (np_linspace 0 (2 * np_pi) num_points);
  let x_bottom := map (λ t, (base_radius * np_cos t)%float) theta in
  let y_bottom := map (λ t, (base_radius * np_sin t)%float) theta in
  let z_bottom := map (λ _, 0%float) theta in
  let x_top := map (λ t, (top_radius * np_cos t)%float) theta in
  let y_top := map (λ t, (top_radius * np_sin t)%float) theta in
  let z_top := map (λ _, height) theta in
  plt (plot3 x_bottom y_bottom z_bottom 0.3 1);;
  plt (plot3 x_top y_top z_top 0.3 1);;
  indices ← lift (range 0 num_points (num_points / 8));
  for_ indices (λ i,
    xb ← lift (getitem x_bottom i);
    xt ← lift (getitem x_top i);
    yb ← lift (getitem y_bottom i);
    yt ← lift (getitem y_top i);
    zb ← lift (getitem z_bottom i);
    zt ← lift (getitem z_top i);
    plt (plot3 [xb; xt] [yb; yt] [zb; zt] 0.2 0.5)).

(** ** The 3D renderer *)

(** The body of [visualize_3d] up to [plt.tight_layout()]: lines 38 to 90,
    which build the figure. *)
Definition draw_3d `{NumpyTrig}
    (positions : list Position.t) (metadata : Metadata.t)
    (show_confidence : bool) : io unit :=
  let observed := observed_of positions in
  let predicted := predicted_of positions in
  let obs_x := map Position.x observed in
  let obs_y := map Position.y observed in
  let obs_z := map Position.z observed in
  let obs_conf := map Position.confidence observed in
  let pred_x := map Position.x predicted in
  let pred_y := map Position.y predicted in
  let pred_z := map Position.z predicted in
  plt (figure 12 10);;
  plt add_subplot_3d;;
  (if show_confidence then
     plt (scatter3 obs_x obs_y obs_z (Viridis obs_conf) 50 0.8 "Observed");;
     plt colorbar
   else
     plt (scatter3 obs_x obs_y obs_z Blue 50 0.8 "Observed"));;
  (match predicted with
   | _ :: _ => plt (scatter3 pred_x pred_y pred_z Red 30 0.5 "Predicted")
   | [] => mret tt
   end);;
  draw_cone_outline (Metadata.tree_height metadata) default_num_points;;
  plt (set_xlabel Ax3D "X (meters)");;
  plt (set_ylabel Ax3D "Y (meters)");;
  plt (set_zlabel "Z (meters)");;
  plt (set_title_counts (Metadata.total_leds metadata)
                        (Metadata.num_observed metadata)
                        (Metadata.num_predicted metadata));;
  plt (legend Ax3D);;
  plt set_box_aspect;;
  let max_range := (Metadata.tree_height metadata / 2)%float in
  set_lim set_xlim (- max_range) max_range;;
  set_lim set_ylim (- max_range) max_range;;
  set_lim set_zlim 0 (Metadata.tree_height metadata).

Definition visualize_3d `{NumpyTrig} `{Matplotlib}
    (positions : list Position.t) (metadata : Metadata.t)
    (show_confidence : bool) (save_path : option string) : io unit :=
  let drawn := draw_3d positions metadata show_confidence in
  let laid_out := then_call drawn tight_layout in
  match save_path with
  | Some path =>
      if truthy save_path then
        then_call laid_out (savefig path 300);;
        print (SavedVisualization path)
      else then_call laid_out show
  | None => then_call laid_out show
  end.

(** ** The 2D projections *)

(** [[values[i] for i in range(len(values)) if flags[i]]] *)
Definition pick (values : list float) (flags : list bool) : list float :=
  flat_map (λ i, match flags !! i, values !! i with
                 | Some true, Some v => [v]
                 | _, _ => []
                 end)
           (seq 0 (length values)).

(** The body of [visualize_2d_projections] up to [plt.tight_layout()]:
    lines 135 to 182, which build the figure. *)
Definition draw_2d (positions : list Position.t) (metadata : Metadata.t)
  : io unit :=
  let x := map Position.x positions in
  let y := map Position.y positions in
  let z := map Position.z positions in
  let observed := map (λ p, negb (Position.predicted p)) positions in
  let not_observed := map negb observed in
  plt (subplots 1 3 15 5);;
  plt (scatter2 AxTop (pick x observed) (pick y observed)
                Blue 30 0.6 (Some "Observed"));;
  plt (scatter2 AxTop (pick x not_observed) (pick y not_observed)
                Red 20 0.4 (Some "Predicted"));;
  plt (set_xlabel AxTop "X (meters)");;
  plt (set_ylabel AxTop "Y (meters)");;
  plt (set_title AxTop "Top View (X-Y)");;
  plt axis_equal;;
  plt (legend AxTop);;
  plt (grid AxTop);;
  plt (scatter2 AxSide (pick x observed) (pick z observed)
                Blue 30 0.6 None);;
  plt (scatter2 AxSide (pick x not_observed) (pick z not_observed)
                Red 20 0.4 None);;
  plt (set_xlabel AxSide "X (meters)");;
  plt (set_ylabel AxSide "Z (meters)");;
  plt (set_title AxSide "Side View (X-Z)");;
  plt (grid AxSide);;
  plt (scatter2 AxFront (pick y observed) (pick z observed)
                Blue 30 0.6 None);;
  plt (scatter2 AxFront (pick y not_observed) (pick z not_observed)
                Red 20 0.4 None);;
  plt (set_xlabel AxFront "Y (meters)");;
  plt (set_ylabel AxFront "Z (meters)");;
  plt (set_title AxFront "Front View (Y-Z)");;
  plt (grid AxFront);;
  plt (suptitle (Metadata.total_leds metadata)).

Definition visualize_2d_projections `{Matplotlib}
    (positions : list Position.t) (metadata : Metadata.t)
    (save_path : option string) : io unit :=
  let drawn := draw_2d positions metadata in
  let laid_out := then_call drawn tight_layout in
  match save_path with
  | Some path =>
      if truthy save_path then
        then_call laid_out (savefig path 300);;
        print (SavedProjections path)
      else then_call laid_out show
  | None => then_call laid_out show
  end.

(** ** The command line *)

Module Args.
Record t := Make {
  json_file : string;
  confidence : bool;          (* --confidence *)
  save : option string;       (* --save PATH; None when not given *)
  projections : bool;         (* --projections *)
  stats : bool;               (* --stats *)
}.
End Args.

(** [main], after [parse_args].  [load] is [load_led_positions] on the named
    file, its result read at the types of the data model. *)
Definition main `{NumpyStats} `{NumpyTrig} `{Matplotlib}
    (load : string → exn + (list Position.t * Metadata.t)) (args : Args.t)
  : io unit :=
  print (Loading (Args.json_file args));;
  '(positions, metadata) ← lift (load (Args.json_file args));
  print (Loaded (length positions));;
  (if Args.stats args
      || negb (Args.projections args || truthy (Args.save args))
   then print_statistics positions metadata
   else mret tt);;
  if negb (Args.stats args) then
    if Args.projections args
    then visualize_2d_projections positions metadata (Args.save args)
    else visualize_3d positions metadata (Args.confidence args)
                      (Args.save args)
  else mret tt.

(** ** Reference instances of the numpy parameters *)

(** The reductions as numpy's scalar loops evaluate them on an array of
    fewer than eight elements: one accumulator, left to right.  (Longer
    arrays are summed pairwise, which may differ in the last bit.) *)
Definition sequential_stats : NumpyStats := {|
  np_mean l := (fold_left PrimFloat.add l 0 / float_of_Z (Z.of_nat (length l)))%float;
  np_min l :=
    match l with
    | [] => nan
    | v :: l' =>
        fold_left (λ m w, if (m <? w)%float || PrimFloat.is_nan m then m else w) l' v
    end;
  np_max l :=
    match l with
    | [] => nan
    | v :: l' =>
        fold_left (λ m w, if (w <? m)%float || PrimFloat.is_nan m then m else w) l' v
    end;
|}.

(** Truncated power series for the cosine and the sine.  They only serve to
    run the model on concrete inputs; every property below holds for any
    [NumpyTrig]. *)
Definition series_trig : NumpyTrig := {|
  np_cos t := (1 - t * t / 2 + t * t * t * t / 24)%float;
  np_sin t := (t - t * t * t / 6 + t * t * t * t * t / 120)%float;
|}.

(** A matplotlib on which no call raises, and one on which every file is
    refused. *)
Definition quiet : Matplotlib := {| mpl_raises _ _ := None |}.

Definition read_only : Matplotlib := {|
  mpl_raises _ c := match c with savefig _ _ => Some OSError | _ => None end;
|}.

(** ** Reading a trace *)

(** The value of a top-level key of the document, if it has one. *)
Definition member (data : json) (key : string) : option json :=
  match data with
  | JObj members => members !! key
  | _ => None
  end.

(** The lines of the confidence block that were printed. *)
Definition confidence_report (tr : list event) : list text :=
  flat_map (λ e, match e with
                 | stdout ConfidenceHeading => [ConfidenceHeading]
                 | stdout (ConfidenceMean v) => [ConfidenceMean v]
                 | stdout (ConfidenceMin v) => [ConfidenceMin v]
                 | stdout (ConfidenceMax v) => [ConfidenceMax v]
                 | stdout (HighConfidence n p) => [HighConfidence n p]
                 | _ => []
                 end) tr.

(** The observed / predicted lines that were printed. *)
Definition percentage_report (tr : list event) : list text :=
  flat_map (λ e, match e with
                 | stdout (ObservedLine n p) => [ObservedLine n p]
                 | stdout (PredictedLine n p) => [PredictedLine n p]
                 | _ => []
                 end) tr.

(** The axis limits that were set. *)
Definition axis_limits (tr : list event) : list call :=
  flat_map (λ e, match e with
                 | pyplot (set_xlim lo hi) => [set_xlim lo hi]
                 | pyplot (set_ylim lo hi) => [set_ylim lo hi]
                 | pyplot (set_zlim lo hi) => [set_zlim lo hi]
                 | _ => []
                 end) tr.

(** The paths images were written to, the number of interactive displays,
    and the confirmation messages. *)
Definition files_written (tr : list event) : list string :=
  flat_map (λ e, match e with pyplot (savefig p _) => [p] | _ => [] end) tr.

Definition displays (tr : list event) : nat :=
  length (List.filter (λ e, match e with pyplot show => true | _ => false end) tr).

Definition confirmations (tr : list event) : list text :=
  flat_map (λ e, match e with
                 | stdout (SavedVisualization p) => [SavedVisualization p]
                 | stdout (SavedProjections p) => [SavedProjections p]
                 | _ => []
                 end) tr.

(** Whether the statistics report was started. *)
Definition statistics_printed (tr : list event) : bool :=
  existsb (λ e, match e with stdout Heading => true | _ => false end) tr.

(** ** The cone outline in closed form *)

(** Sample [i] of [num] evenly spaced samples from [start] to [stop]. *)
Definition linspace_sample (start stop : float) (num : Z) (i : nat) : float :=
  if Z.of_nat i =? num - 1 then stop
  else
    let delta := (stop - start)%float in
    let step := (delta / float_of_Z (num - 1))%float in
    if (step =? 0)%float
    then (float_of_Z (Z.of_nat i) / float_of_Z (num - 1) * delta + start)%float
    else (float_of_Z (Z.of_nat i) * step + start)%float.

Definition cone_angle (num_points : Z) (i : nat) : float :=
  linspace_sample 0 (2 * np_pi) num_points i.

(** The circle of radius [r] at height [z0], sampled at [num_points]
    angles, as a call of [plot]. *)
Definition circle `{NumpyTrig} (r z0 : float) (num_points : Z) : call :=
  let theta := map (cone_angle num_points) (seq 0 (Z.to_nat num_points)) in
  plot3 (map (λ t, (r * np_cos t)%float) theta)
        (map (λ t, (r * np_sin t)%float) theta)
        (map (λ _, z0) theta) 0.3 1.

(** The segment from the bottom circle to the top circle at sample [i]. *)
Definition segment `{NumpyTrig} (height : float) (num_points : Z) (i : nat)
  : call :=
  let t := cone_angle num_points i in
  plot3 [(height * 0.25 * np_cos t)%float; (height * 0.025 * np_cos t)%float]
        [(height * 0.25 * np_sin t)%float; (height * 0.025 * np_sin t)%float]
        [0%float; height] 0.2 0.5.

(** The samples that get a segment: [0, k, 2k, ...] below [num_points], with
    [k = num_points // 8]. *)
Definition segment_count (num_points : Z) : nat :=
  Z.to_nat (1 + (num_points - 1) / (num_points / 8)).

Definition segment_samples (num_points : Z) : list nat :=
  map (λ j, (j * Z.to_nat (num_points / 8))%nat) (seq 0 (segment_count num_points)).

(** The calls [draw_cone_outline] makes when it completes. *)
Definition cone_calls `{NumpyTrig} (height : float) (num_points : Z)
  : list call :=
  circle (height * 0.25) 0 num_points
  :: circle (height * 0.025) height num_points
  :: map (segment height num_points) (segment_samples num_points).

(** The plots through exactly two points: the connecting segments. *)
Definition connecting_lines (tr : list event) : list call :=
  flat_map (λ e, match e with
                 | pyplot (plot3 [x0; x1] [y0; y1] [z0; z1] a w) =>
                     [plot3 [x0; x1] [y0; y1] [z0; z1] a w]
                 | _ => []
                 end) tr.

(** ** The statistics report in closed form *)

Definition header_lines (metadata : Metadata.t) : list text :=
  [Rule; Heading; Rule;
   TotalLeds (Metadata.total_leds metadata);
   TreeHeight (Metadata.tree_height metadata)]
  ++ (if Metadata.num_cameras metadata =? 0 then []
      else [NumberOfCameras (Metadata.num_cameras metadata)]).

Definition percentage_lines (metadata : Metadata.t) : list text :=
  [ObservedLine (Metadata.num_observed metadata)
     (inject_Z (100 * Metadata.num_observed metadata)
      / inject_Z (Metadata.total_leds metadata))%Q;
   PredictedLine (Metadata.num_predicted metadata)
     (inject_Z (100 * Metadata.num_predicted metadata)
      / inject_Z (Metadata.total_leds metadata))%Q].

Definition confidence_lines `{NumpyStats} (positions : list Position.t)
  : list text :=
  match observed_of positions with
  | [] => []
  | observed =>
      let confidences := map Position.confidence observed in
      [ConfidenceHeading;
       ConfidenceMean (np_mean confidences);
       ConfidenceMin (np_min confidences);
       ConfidenceMax (np_max confidences);
       HighConfidence (high_confidence confidences)
         (inject_Z (100 * high_confidence confidences)
          / inject_Z (Z.of_nat (length confidences)))%Q]
  end.

Definition range_line (line : float → float → text) (values : list float)
  : list text :=
  match min_ values, max_ values with
  | inr lo, inr hi => [line lo hi]
  | _, _ => []
  end.

Definition spatial_lines (positions : list Position.t) : list text :=
  range_line XRange (map Position.x positions)
  ++ range_line YRange (map Position.y positions)
  ++ range_line ZRange (map Position.z positions)
  ++ range_line HeightRange (map Position.height positions)
  ++ range_line AngleRange (map Position.angle positions).

(** The whole report and the outcome of the statistics printer. *)
Definition report_lines `{NumpyStats}
    (positions : list Position.t) (metadata : Metadata.t) : list text :=
  header_lines metadata
  ++ match truediv (100 * Metadata.num_observed metadata)
             (Metadata.total_leds metadata) with
     | inl _ => []
     | inr observed =>
         ObservedLine (Metadata.num_observed metadata) observed
         :: match truediv (100 * Metadata.num_predicted metadata)
                  (Metadata.total_leds metadata) with
            | inl _ => []
            | inr predicted =>
                PredictedLine (Metadata.num_predicted metadata) predicted
                :: confidence_lines positions
                ++ SpatialHeading
                :: match positions with
                   | [] => []
                   | _ :: _ => spatial_lines positions ++ [Rule]
                   end
            end
     end.

Definition report_outcome (positions : list Position.t)
    (metadata : Metadata.t) : exn + unit :=
  match truediv (100 * Metadata.num_observed metadata)
          (Metadata.total_leds metadata) with
  | inl e => inl e
  | inr _ =>
      match truediv (100 * Metadata.num_predicted metadata)
              (Metadata.total_leds metadata) with
      | inl e => inl e
      | inr _ =>
          match positions with
          | [] => inl (ValueError EmptySequence)
          | _ :: _ => inr tt
          end
      end
  end.

(** ** The end of a rendering *)

(** The save path a renderer writes to: the one given, unless it is
    empty. *)
Definition target (save_path : option string) : option string :=
  if truthy save_path then save_path else None.

(** What either renderer does after the calls [drawn] have built the
    figure: lay it out, then write it and say so, or show it. *)
Definition ending `{Matplotlib} (saved : string → text) (drawn : list call)
    (save_path : option string) : io unit :=
  match mpl_raises drawn tight_layout with
  | Some e => Io [] (inl e)
  | None =>
      match target save_path with
      | Some path =>
          match mpl_raises (drawn ++ [tight_layout]) (savefig path 300) with
          | Some e => Io [pyplot tight_layout] (inl e)
          | None =>
              Io [pyplot tight_layout; pyplot (savefig path 300);
                  stdout (saved path)] (inr tt)
          end
      | None =>
          match mpl_raises (drawn ++ [tight_layout]) show with
          | Some e => Io [pyplot tight_layout] (inl e)
          | None => Io [pyplot tight_layout; pyplot show] (inr tt)
          end
      end
  end.

(** The rest of a renderer once building the figure ended with [out]. *)
Definition rest `{Matplotlib} (out : exn + unit) (saved : string → text)
    (drawn : list call) (save_path : option string) : io unit :=
  match out with
  | inl e => Io [] (inl e)
  | inr _ => ending saved drawn save_path
  end.

(** A call that builds the figure, as opposed to one that lays it out,
    writes it or shows it. *)
Definition draws (c : call) : Prop :=
  match c with
  | tight_layout | savefig _ _ | show => False
  | _ => True
  end.

(** The limits a call sets. *)
Definition sets_limit (c : call) : list call :=
  match c with
  | set_xlim _ _ | set_ylim _ _ | set_zlim _ _ => [c]
  | _ => []
  end.

(** [performs obs m seen out]: the computation [m] ends with [out]; it
    makes only calls that build the figure, of which [obs] keeps [seen]. *)
Definition performs {X} (obs : call → list X) (m : io unit) (seen : list X)
    (out : exn + unit) : Prop :=
  ∃ calls : list call,
    m = Io (map pyplot calls) out
    ∧ Forall draws calls
    ∧ flat_map obs calls = seen.

(** ** Example inputs *)

Definition example_document : json :=
  JObj (<["positions" := JArr []]>
       (<["total_leds" := JInt 2]>
       (<["tree_height" := JFloat 1.5]>
       (<["num_observed" := JInt 2]> ∅)))).

Definition example_position (confidence : float) (predicted : bool)
  : Position.t :=
  Position.Make 0.1 (-0.2) 0.5 0.25 90 confidence predicted.

(** The four observed records of the statistics scenario. *)
Definition scenario_positions : list Position.t :=
  [example_position 0.2 false; example_position 0.5 false;
   example_position 0.9 false; example_position 1.0 false].

Definition example_metadata (total_leds : Z) : Metadata.t :=
  Metadata.Make total_leds 10 3 4 0.

Definition example_args (save : option string) (projections stats : bool)
  : Args.t :=
  Args.Make "led_positions.json" false save projections stats.

Definition example_load (file : string)
  : exn + (list Position.t * Metadata.t) :=
  inr (scenario_positions, example_metadata 4).

(** ** Further readings of a trace *)

(** Everything that was printed, in order. *)
Definition printed (tr : list event) : list text :=
  flat_map (λ e, match e with stdout t => [t] | _ => [] end) tr.

(** The camera line, if it was printed. *)
Definition camera_report (tr : list event) : list text :=
  flat_map (λ e, match e with
                 | stdout (NumberOfCameras n) => [NumberOfCameras n]
                 | _ => []
                 end) tr.

(** The lines of the spatial and angular extents that were printed. *)
Definition spatial_report (tr : list event) : list text :=
  flat_map (λ e, match e with
                 | stdout (XRange lo hi) => [XRange lo hi]
                 | stdout (YRange lo hi) => [YRange lo hi]
                 | stdout (ZRange lo hi) => [ZRange lo hi]
                 | stdout (HeightRange lo hi) => [HeightRange lo hi]
                 | stdout (AngleRange lo hi) => [AngleRange lo hi]
                 | _ => []
                 end) tr.

(** The calls that plot the records, with the colour bar that explains
    them. *)
Definition plots_data (c : call) : list call :=
  match c with
  | scatter3 _ _ _ _ _ _ _ | scatter2 _ _ _ _ _ _ _ | colorbar => [c]
  | _ => []
  end.

Definition data_calls (tr : list event) : list call :=
  flat_map plots_data (rendering tr).

(** The number of points a list of calls scatters. *)
Definition points (calls : list call) : nat :=
  list_sum (map (λ c, match c with
                      | scatter3 xs _ _ _ _ _ _ => length xs
                      | scatter2 _ xs _ _ _ _ _ => length xs
                      | _ => 0%nat
                      end) calls).

(** The calls that create a figure. *)
Definition creates_figure (c : call) : list call :=
  match c with
  | figure _ _ | subplots _ _ _ _ => [c]
  | _ => []
  end.

Definition figures (tr : list event) : list call :=
  flat_map creates_figure (rendering tr).

(** Whether [main] calls the statistics printer. *)
Definition wants_statistics (args : Args.t) : bool :=
  Args.stats args || negb (Args.projections args || truthy (Args.save args)).

(** The renderer [main] chooses, or none with [--stats]. *)
Definition chosen_renderer `{NumpyTrig} `{Matplotlib} (args : Args.t)
    (positions : list Position.t) (metadata : Metadata.t) : io unit :=
  if negb (Args.stats args) then
    if Args.projections args
    then visualize_2d_projections positions metadata (Args.save args)
    else visualize_3d positions metadata (Args.confidence args)
           (Args.save args)
  else mret tt.

Definition chosen_statistics `{NumpyStats} (args : Args.t)
    (positions : list Position.t) (metadata : Metadata.t) : io unit :=
  if wants_statistics args
  then print_statistics positions metadata else mret tt.
(** * Properties *)

(** ** The monad *)

Section Monad.
Context {A B : Type}.

Lemma bind_emit (e : event) (k : io B) :
  (emit e;; k) = Io (e :: trace k) (outcome k).
Proof. reflexivity. Qed.

Lemma bind_lift_inr (a : A) (k : A → io B) :
  (lift (inr a) ≫= k) = Io (trace (k a)) (outcome (k a)).
Proof. reflexivity. Qed.

Lemma bind_lift_inl (e : exn) (k : A → io B) :
  (lift (inl e) ≫= k) = Io [] (inl e).
Proof. reflexivity. Qed.

Lemma bind_Io_inr (tr : list event) (a : A) (k : A → io B) :
  (Io tr (inr a) ≫= k) = Io (tr ++ trace (k a)) (outcome (k a)).
Proof. reflexivity. Qed.

Lemma bind_Io_inl (tr : list event) (e : exn) (k : A → io B) :
  (Io tr (inl e) ≫= k) = Io tr (inl e).
Proof. reflexivity. Qed.

Lemma trace_bind (m : io A) (k : A → io B) :
  ∃ rest, trace (m ≫= k) = trace m ++ rest.
Proof.
  destruct m as [tr [e|a]]; cbn.
  - exists []. by rewrite app_nil_r.
  - by eexists.
Qed.

(** A property of every event of two computations holds of every event
    of their sequence. *)
Lemma Forall_trace_bind (P : event → Prop) (m : io A) (k : A → io B) :
  Forall P (trace m) → (∀ a, Forall P (trace (k a))) →
  Forall P (trace (m ≫= k)).
Proof.
  intros Hm Hk. destruct m as [tr [e|a]]; cbn in *; [done|].
  apply Forall_app; split; [done|apply Hk].
Qed.
End Monad.

Lemma io_eta {A} (m : io A) : Io (trace m) (outcome m) = m.
Proof. by destruct m. Qed.

(** A loop whose every iteration is one call emits the calls in order. *)
Lemma for_calls {A} (l : list A) (body : A → io unit) (c : A → call) :
  Forall (λ v, body v = plt (c v)) l →
  for_ l body = Io (map (λ v, pyplot (c v)) l) (inr tt).
Proof.
  induction 1 as [|v l Hv _ IH]; [done|].
  cbn [for_ map]. rewrite Hv, IH. reflexivity.
Qed.

(** ** The loader *)

(** C4. The loader fails when [positions], [total_leds] or [tree_height] is
    not a top-level key of the document: with [KeyError] on the first of
    them that an object lacks, with [TypeError] when the document is not an
    object.  When the three are present it returns the value of
    [positions] and a metadata dict that holds the values of [total_leds]
    and [tree_height], and for each of [num_cameras], [num_observed] and
    [num_predicted] the document's value when present and 0 when absent. *)
Theorem load_led_positions_contract (data : json) :
  ((member data "positions" = None
    ∨ member data "total_leds" = None
    ∨ member data "tree_height" = None) →
   ∃ e, load_led_positions data = inl e
        ∧ (e = TypeError ∨ e = KeyError "positions"
           ∨ e = KeyError "total_leds" ∨ e = KeyError "tree_height"))
  ∧ (∀ positions total_leds tree_height,
       member data "positions" = Some positions →
       member data "total_leds" = Some total_leds →
       member data "tree_height" = Some tree_height →
       ∃ metadata : gmap string json,
         load_led_positions data = inr (positions, metadata)
         ∧ metadata !! "total_leds" = Some total_leds
         ∧ metadata !! "tree_height" = Some tree_height
         ∧ metadata !! "num_cameras"
           = Some (default (JInt 0) (member data "num_cameras"))
         ∧ metadata !! "num_observed"
           = Some (default (JInt 0) (member data "num_observed"))
         ∧ metadata !! "num_predicted"
           = Some (default (JInt 0) (member data "num_predicted"))
         ∧ dom metadata
           = {["total_leds"; "tree_height"; "num_cameras"; "num_observed";
               "num_predicted"]}).
Proof.
  split.
  - intros Hmissing. unfold load_led_positions.
    destruct data as [| | | | | |members]; cbn;
      try (eexists; split; [reflexivity|]; by left).
    cbn in Hmissing.
    destruct (members !! "positions") as [p|] eqn:Hp; cbn;
      [|eexists; split; [reflexivity|]; right; by left].
    destruct (members !! "total_leds") as [t|] eqn:Ht; cbn;
      [|eexists; split; [reflexivity|]; right; right; by left].
    destruct (members !! "tree_height") as [h|] eqn:Hh; cbn;
      [|eexists; split; [reflexivity|]; right; right; by right].
    by destruct Hmissing as [?|[?|?]].
  - intros positions total_leds tree_height Hp Ht Hh.
    destruct data as [| | | | | |members]; try discriminate.
    cbn in *. unfold load_led_positions; cbn. rewrite Hp, Ht, Hh; cbn.
    destruct (members !! "num_cameras"), (members !! "num_observed"),
      (members !! "num_predicted"); cbn;
      (eexists; split; [reflexivity|]);
      repeat split; try by simplify_map_eq.
    all: rewrite !dom_insert_L, dom_empty_L; set_solver.
Qed.

(** ** The partition into observed and predicted records *)

(** C5. The records with [predicted] false and those with [predicted] true
    partition the list: their lengths add up to its length, every record
    of the list is in exactly the subset its flag names, and no record is
    in both. *)
Theorem partition_complete (positions : list Position.t) :
  (length (observed_of positions) + length (predicted_of positions)
   = length positions)%nat
  ∧ (∀ p, In p (observed_of positions)
          ↔ In p positions ∧ Position.predicted p = false)
  ∧ (∀ p, In p (predicted_of positions)
          ↔ In p positions ∧ Position.predicted p = true)
  ∧ (∀ p, ¬ (In p (observed_of positions) ∧ In p (predicted_of positions))).
Proof.
  unfold observed_of, predicted_of.
  split; [|split; [|split]].
  - rewrite Nat.add_comm. apply List.filter_length.
  - intros p. rewrite List.filter_In, negb_true_iff. tauto.
  - intros p. rewrite List.filter_In. tauto.
  - intros p [Ho Hp]. apply List.filter_In in Ho as [_ Ho].
    apply List.filter_In in Hp as [_ Hp]. rewrite Hp in Ho. discriminate.
Qed.

(** ** The statistics printer *)

Lemma float_overflow_large : 100 < float_overflow.
Proof. reflexivity. Qed.

Lemma truediv_zero (a : Z) : truediv a 0 = inl ZeroDivisionError.
Proof. reflexivity. Qed.

Lemma truediv_fits (a b : Z) :
  b ≠ 0 → fits a b = true →
  truediv a b = inr (inject_Z a / inject_Z b)%Q.
Proof.
  intros Hb Hfit. unfold truediv.
  by rewrite (proj2 (Z.eqb_neq b 0) Hb), Hfit.
Qed.

Lemma truediv_overflow (a b : Z) :
  b ≠ 0 → fits a b = false → truediv a b = inl OverflowError.
Proof.
  intros Hb Hfit. unfold truediv.
  by rewrite (proj2 (Z.eqb_neq b 0) Hb), Hfit.
Qed.

(** A share of a whole, as a percentage, always fits. *)
Lemma truediv_share (count whole : Z) :
  0 ≤ count ≤ whole → 0 < whole →
  truediv (100 * count) whole
  = inr (inject_Z (100 * count) / inject_Z whole)%Q.
Proof.
  intros Hc Hw. apply truediv_fits; [lia|].
  unfold fits. apply Z.ltb_lt. pose proof float_overflow_large. nia.
Qed.

Lemma high_confidence_bounds (confidences : list float) :
  0 ≤ high_confidence confidences ≤ Z.of_nat (length confidences).
Proof.
  unfold high_confidence. split; [lia|].
  apply inj_le, List.filter_length_le.
Qed.

(** The run of the statistics printer, on every input. *)
Lemma print_statistics_run `{NumpyStats}
    (positions : list Position.t) (metadata : Metadata.t) :
  print_statistics positions metadata
  = Io (map stdout (report_lines positions metadata))
       (report_outcome positions metadata).
Proof.
  unfold print_statistics, report_lines, report_outcome, header_lines,
    confidence_lines.
  destruct (truediv (100 * Metadata.num_observed metadata) _) as [e|po];
    [by destruct (Metadata.num_cameras metadata =? 0)|].
  destruct (truediv (100 * Metadata.num_predicted metadata) _) as [e|pp];
    [by destruct (Metadata.num_cameras metadata =? 0)|].
  destruct positions as [|p ps];
    [by destruct (Metadata.num_cameras metadata =? 0)|].
  destruct (observed_of (p :: ps)) as [|o os].
  - unfold spatial_lines. by destruct (Metadata.num_cameras metadata =? 0).
  - rewrite truediv_share;
      [|apply high_confidence_bounds|cbn [map length]; lia].
    unfold spatial_lines. by destruct (Metadata.num_cameras metadata =? 0).
Qed.

(** When the statistics printer completes. *)
Lemma report_outcome_ok (positions : list Position.t) (metadata : Metadata.t) :
  report_outcome positions metadata = inr tt
  ↔ Metadata.total_leds metadata ≠ 0
    ∧ fits (100 * Metadata.num_observed metadata)
           (Metadata.total_leds metadata) = true
    ∧ fits (100 * Metadata.num_predicted metadata)
           (Metadata.total_leds metadata) = true
    ∧ positions ≠ [].
Proof.
  unfold report_outcome, truediv.
  destruct (Z.eqb_spec (Metadata.total_leds metadata) 0) as [Ht|Ht];
    [split; [done|by intros [? _]]|].
  destruct (fits (100 * Metadata.num_observed metadata) _);
    [|split; [done|by intros (_ & ? & _)]].
  destruct (fits (100 * Metadata.num_predicted metadata) _);
    [|split; [done|by intros (_ & _ & ? & _)]].
  destruct positions; [split; [done|by intros (_ & _ & _ & ?)]|done].
Qed.

(** Which lines of the report each reading of a trace keeps. *)
Ltac read_report :=
  rewrite print_statistics_run; cbn [trace];
  unfold report_lines, header_lines, confidence_lines, spatial_lines,
    range_line;
  match goal with
  | positions : list Position.t, metadata : Metadata.t |- _ =>
      destruct (truediv (100 * Metadata.num_observed metadata) _);
        [by destruct (Metadata.num_cameras metadata =? 0)|];
      destruct (truediv (100 * Metadata.num_predicted metadata) _);
        [by destruct (Metadata.num_cameras metadata =? 0)|];
      destruct positions as [|? ?];
        [by destruct (Metadata.num_cameras metadata =? 0)|];
      match goal with
      | |- context [observed_of ?l] => destruct (observed_of l)
      end;
      by destruct (Metadata.num_cameras metadata =? 0)
  end.

Lemma percentage_report_run `{NumpyStats}
    (positions : list Position.t) (metadata : Metadata.t) :
  percentage_report (trace (print_statistics positions metadata))
  = match truediv (100 * Metadata.num_observed metadata)
            (Metadata.total_leds metadata) with
    | inl _ => []
    | inr observed =>
        ObservedLine (Metadata.num_observed metadata) observed
        :: match truediv (100 * Metadata.num_predicted metadata)
                   (Metadata.total_leds metadata) with
           | inl _ => []
           | inr predicted =>
               [PredictedLine (Metadata.num_predicted metadata) predicted]
           end
    end.
Proof. read_report. Qed.

Lemma confidence_report_run `{NumpyStats}
    (positions : list Position.t) (metadata : Metadata.t) :
  confidence_report (trace (print_statistics positions metadata))
  = match truediv (100 * Metadata.num_observed metadata)
            (Metadata.total_leds metadata),
          truediv (100 * Metadata.num_predicted metadata)
            (Metadata.total_leds metadata) with
    | inr _, inr _ => confidence_lines positions
    | _, _ => []
    end.
Proof. read_report. Qed.

Lemma camera_report_run `{NumpyStats}
    (positions : list Position.t) (metadata : Metadata.t) :
  camera_report (trace (print_statistics positions metadata))
  = if Metadata.num_cameras metadata =? 0 then []
    else [NumberOfCameras (Metadata.num_cameras metadata)].
Proof. read_report. Qed.

Lemma spatial_report_run `{NumpyStats}
    (positions : list Position.t) (metadata : Metadata.t) :
  spatial_report (trace (print_statistics positions metadata))
  = match truediv (100 * Metadata.num_observed metadata)
            (Metadata.total_leds metadata),
          truediv (100 * Metadata.num_predicted metadata)
            (Metadata.total_leds metadata) with
    | inr _, inr _ => spatial_lines positions
    | _, _ => []
    end.
Proof. read_report. Qed.

Lemma observed_of_all (positions : list Position.t) :
  Forall (λ p, Position.predicted p = false) positions →
  observed_of positions = positions.
Proof.
  unfold observed_of.
  induction 1 as [|p ps Hp _ IH]; cbn; [done|]. by rewrite Hp, IH.
Qed.

(** The confidence block of a run that gets past the percentages. *)
Lemma confidence_report_fits `{NumpyStats}
    (positions : list Position.t) (metadata : Metadata.t) :
  Metadata.total_leds metadata ≠ 0 →
  fits (100 * Metadata.num_observed metadata)
       (Metadata.total_leds metadata) = true →
  fits (100 * Metadata.num_predicted metadata)
       (Metadata.total_leds metadata) = true →
  confidence_report (trace (print_statistics positions metadata))
  = confidence_lines positions.
Proof.
  intros Ht Ho Hp.
  by rewrite confidence_report_run, !truediv_fits.
Qed.



(** C3. When [total_leds] is zero the run ends with [ZeroDivisionError],
    whatever the other metadata and the records are, and no percentage is
    printed: the division is not guarded.  When it is not zero the run
    does not end that way, and every percentage printed is the quotient
    [100 * num_observed / total_leds], then [100 * num_predicted /
    total_leds]; each is printed unless it is too large for a float, in
    which case the run ends there with [OverflowError]. *)
Theorem percentages_divide_by_total_leds `{NumpyStats}
    (positions : list Position.t) (metadata : Metadata.t) :
  (Metadata.total_leds metadata = 0 →
   outcome (print_statistics positions metadata) = inl ZeroDivisionError
   ∧ percentage_report (trace (print_statistics positions metadata)) = [])
  ∧ (Metadata.total_leds metadata ≠ 0 →
     outcome (print_statistics positions metadata) ≠ inl ZeroDivisionError
     ∧ percentage_report (trace (print_statistics positions metadata))
       = (if fits (100 * Metadata.num_observed metadata)
                  (Metadata.total_leds metadata)
          then
            ObservedLine (Metadata.num_observed metadata)
              (inject_Z (100 * Metadata.num_observed metadata)
               / inject_Z (Metadata.total_leds metadata))%Q
            :: (if fits (100 * Metadata.num_predicted metadata)
                        (Metadata.total_leds metadata)
                then
                  [PredictedLine (Metadata.num_predicted metadata)
                     (inject_Z (100 * Metadata.num_predicted metadata)
                      / inject_Z (Metadata.total_leds metadata))%Q]
                else [])
          else [])
     ∧ (fits (100 * Metadata.num_observed metadata)
             (Metadata.total_leds metadata)
        && fits (100 * Metadata.num_predicted metadata)
                (Metadata.total_leds metadata) = false →
        outcome (print_statistics positions metadata) = inl OverflowError)).
Proof.
  rewrite percentage_report_run, print_statistics_run. cbn [outcome].
  unfold report_outcome. split; intros Ht.
  - by rewrite Ht.
  - unfold truediv. rewrite !(proj2 (Z.eqb_neq _ 0) Ht).
    destruct (fits (100 * Metadata.num_observed metadata) _);
      [|by repeat split].
    destruct (fits (100 * Metadata.num_predicted metadata) _);
      [|by repeat split].
    split; [by destruct positions|]. by split.
Qed.

Lemma percentages_divide_by_total_leds_witness :
  outcome (print_statistics (H := sequential_stats) scenario_positions
             (example_metadata 0))
  = inl ZeroDivisionError
  ∧ percentage_report
      (trace (print_statistics (H := sequential_stats) scenario_positions
                (example_metadata 4)))
    = [ObservedLine 4 (inject_Z 400 / inject_Z 4)%Q;
       PredictedLine 0 (inject_Z 0 / inject_Z 4)%Q]
  ∧ outcome (print_statistics (H := sequential_stats) scenario_positions
               (Metadata.Make 1 10 0 (10 ^ 400) 0))
    = inl OverflowError.
Proof.
  split; [|split].
  - apply (proj1 (percentages_divide_by_total_leds (H := sequential_stats)
                    scenario_positions (example_metadata 0))).
    reflexivity.
  - apply (proj2 (percentages_divide_by_total_leds (H := sequential_stats)
                    scenario_positions (example_metadata 4))).
    discriminate.
  - apply (proj2 (percentages_divide_by_total_leds (H := sequential_stats)
                    scenario_positions (Metadata.Make 1 10 0 (10 ^ 400) 0)));
      [discriminate|reflexivity].
Defined.

(** C10 as stated fails when [total_leds] is zero: on the empty list the
    run then ends with the division error, before the spatial extents are
    reached. *)
Lemma empty_positions_zero_total :
  outcome (print_statistics (H := sequential_stats) [] (example_metadata 0))
  = inl ZeroDivisionError
  ∧ outcome (print_statistics (H := sequential_stats) [] (example_metadata 0))
    ≠ inl (ValueError EmptySequence)
  ∧ ¬ In (stdout SpatialHeading)
        (trace (print_statistics (H := sequential_stats) []
                  (example_metadata 0))).
Proof.
  split; [reflexivity|]. split; [discriminate|].
  cbn. intros H. repeat destruct H as [H|H]; discriminate || done.
Qed.

(** C10, amended. On the empty list the run always fails.  It fails at
    the percentages when [total_leds] is zero (division by zero) or a
    percentage is too large for a float ([OverflowError]); otherwise it
    fails with the [ValueError] of [min] on an empty sequence, raised
    right after the spatial heading is printed.  When the list is not
    empty but holds no observed record, and the percentages were
    computed, the run completes and prints no line of the confidence
    block. *)
Theorem print_statistics_needs_positions `{NumpyStats} :
  (∀ metadata : Metadata.t,
     outcome (print_statistics [] metadata) ≠ inr tt)
  ∧ (∀ metadata : Metadata.t,
       Metadata.total_leds metadata = 0 →
       outcome (print_statistics [] metadata) = inl ZeroDivisionError)
  ∧ (∀ metadata : Metadata.t,
       Metadata.total_leds metadata ≠ 0 →
       fits (100 * Metadata.num_observed metadata)
            (Metadata.total_leds metadata)
       && fits (100 * Metadata.num_predicted metadata)
               (Metadata.total_leds metadata) = false →
       outcome (print_statistics [] metadata) = inl OverflowError
       ∧ ¬ In (stdout SpatialHeading) (trace (print_statistics [] metadata)))
  ∧ (∀ metadata : Metadata.t,
       Metadata.total_leds metadata ≠ 0 →
       fits (100 * Metadata.num_observed metadata)
            (Metadata.total_leds metadata) = true →
       fits (100 * Metadata.num_predicted metadata)
            (Metadata.total_leds metadata) = true →
       outcome (print_statistics [] metadata) = inl (ValueError EmptySequence)
       ∧ last (trace (print_statistics [] metadata))
         = Some (stdout SpatialHeading))
  ∧ (∀ (positions : list Position.t) (metadata : Metadata.t),
       Metadata.total_leds metadata ≠ 0 →
       fits (100 * Metadata.num_observed metadata)
            (Metadata.total_leds metadata) = true →
       fits (100 * Metadata.num_predicted metadata)
            (Metadata.total_leds metadata) = true →
       positions ≠ [] →
       observed_of positions = [] →
       outcome (print_statistics positions metadata) = inr tt
       ∧ confidence_report (trace (print_statistics positions metadata)) = []).
Proof.
  split; [|split; [|split; [|split]]].
  - intros metadata. rewrite print_statistics_run. cbn [outcome].
    intros Hok%report_outcome_ok. by destruct Hok as (_ & _ & _ & ?).
  - intros metadata Ht. rewrite print_statistics_run. cbn [outcome].
    unfold report_outcome. by rewrite Ht.
  - intros metadata Ht Hfit. rewrite print_statistics_run.
    cbn [outcome trace]. unfold report_outcome, report_lines, truediv.
    rewrite !(proj2 (Z.eqb_neq _ 0) Ht).
    destruct (fits (100 * Metadata.num_observed metadata) _);
      [destruct (fits (100 * Metadata.num_predicted metadata) _);
         [done|]|];
      (split; [done|]); unfold header_lines;
      destruct (Metadata.num_cameras metadata =? 0); cbn;
      intros Hin; repeat destruct Hin as [Hin|Hin]; discriminate || done.
  - intros metadata Ht Ho Hp. rewrite print_statistics_run.
    cbn [outcome trace]. unfold report_outcome, report_lines.
    rewrite !truediv_fits by done. split; [done|].
    change (ObservedLine ?a ?b :: PredictedLine ?c ?d :: ?l ++ [?x])
      with ((ObservedLine a b :: PredictedLine c d :: l) ++ [x]).
    rewrite app_assoc, map_app. apply last_snoc.
  - intros positions metadata Ht Ho Hp Hne Hobs. split.
    + rewrite print_statistics_run. cbn [outcome].
      by apply report_outcome_ok.
    + rewrite confidence_report_fits by done. unfold confidence_lines.
      by rewrite Hobs.
Qed.

Lemma print_statistics_needs_positions_witness :
  outcome (print_statistics (H := sequential_stats) [] (example_metadata 0))
  = inl ZeroDivisionError
  ∧ outcome (print_statistics (H := sequential_stats) []
               (Metadata.Make 1 10 0 (10 ^ 400) 0))
    = inl OverflowError
  ∧ outcome (print_statistics (H := sequential_stats) [] (example_metadata 4))
    = inl (ValueError EmptySequence)
  ∧ outcome (print_statistics (H := sequential_stats)
               [example_position 0.5 true] (example_metadata 1))
    = inr tt.
Proof.
  pose proof (print_statistics_needs_positions (H := sequential_stats))
    as (_ & Hzero & Hover & Hempty & Hskip).
  split; [|split; [|split]].
  - apply Hzero. reflexivity.
  - apply Hover; [discriminate|reflexivity].
  - apply Hempty; [discriminate|reflexivity|reflexivity].
  - apply (Hskip [example_position 0.5 true] (example_metadata 1));
      [discriminate|reflexivity|reflexivity|discriminate|reflexivity].
Defined.
(** ** The cone outline *)

(** Overwriting the last element of a list given by index. *)
Lemma set_last_map {A} (g : nat → A) (s : A) (n : nat) :
  <[(n - 1)%nat := s]> (map g (seq 0 n))
  = map (λ i, if (i =? n - 1)%nat then s else g i) (seq 0 n).
Proof.
  apply list_eq; intros i.
  change (map ?f ?l) with (f <$> l).
  rewrite !list_lookup_fmap.
  destruct (decide (i < n)%nat) as [Hi|Hi].
  - rewrite (lookup_seq_lt _ _ _ Hi). cbn.
    destruct (Nat.eqb_spec i (n - 1)) as [->|Hne].
    + rewrite list_lookup_insert_eq; [done|]. rewrite length_fmap, length_seq. lia.
    + rewrite list_lookup_insert_ne by done.
      by rewrite list_lookup_fmap, (lookup_seq_lt _ _ _ Hi).
  - rewrite (lookup_seq_ge 0 n i) by lia. cbn.
    apply lookup_ge_None_2. rewrite length_insert, length_fmap, length_seq. lia.
Qed.

(** [np.linspace] gives the samples of the closed form. *)
Lemma np_linspace_samples (start stop : float) (num : Z) :
  2 ≤ num →
  np_linspace start stop num
  = inr (map (linspace_sample start stop num) (seq 0 (Z.to_nat num))).
Proof.
  intros Hnum. unfold np_linspace.
  rewrite (proj2 (Z.ltb_ge num 0)) by lia.
  rewrite (proj2 (Z.ltb_lt 0 (num - 1))) by lia.
  rewrite (proj2 (Z.ltb_lt 1 num)) by lia.
  f_equal. cbv zeta.
  assert (Hext : ∀ g : float → float,
    <[(length (map (λ v, (v + start)%float)
         (map g (map (λ i, float_of_Z (Z.of_nat i)) (seq 0 (Z.to_nat num)))))
       - 1)%nat := stop]>
      (map (λ v, (v + start)%float)
         (map g (map (λ i, float_of_Z (Z.of_nat i)) (seq 0 (Z.to_nat num)))))
    = map (λ i, if Z.of_nat i =? num - 1 then stop
                else (g (float_of_Z (Z.of_nat i)) + start)%float)
        (seq 0 (Z.to_nat num))).
  { intros g. rewrite !length_map, length_seq, !map_map, set_last_map.
    apply map_ext_in. intros i Hi%in_seq.
    destruct (Nat.eqb_spec i (Z.to_nat num - 1)) as [->|Hne].
    - by rewrite (proj2 (Z.eqb_eq _ _)) by lia.
    - by rewrite (proj2 (Z.eqb_neq _ _)) by lia. }
  unfold linspace_sample.
  destruct (PrimFloat.eqb _ 0); rewrite Hext; reflexivity.
Qed.

(** Indexing a mapped array inside its bounds. *)
Lemma getitem_map (f : float → float) (a : nat → float) (n i : nat) :
  (i < n)%nat →
  getitem (map f (map a (seq 0 n))) (Z.of_nat i) = inr (f (a i)).
Proof.
  intros Hi. unfold getitem. rewrite !length_map, length_seq.
  rewrite (proj2 (Z.ltb_ge (Z.of_nat i) 0)) by lia.
  rewrite (proj2 (Z.ltb_ge (Z.of_nat i) 0)) by lia.
  rewrite (proj2 (Z.leb_gt (Z.of_nat n) (Z.of_nat i))) by lia.
  cbn [orb]. rewrite Nat2Z.id.
  change (map ?g ?l) with (g <$> l).
  by rewrite !list_lookup_fmap, (lookup_seq_lt _ _ _ Hi).
Qed.

(** The loop's [range] is the list of segment samples. *)
Lemma range_segment_samples (n : Z) :
  8 ≤ n → range 0 n (n / 8) = inr (map Z.of_nat (segment_samples n)).
Proof.
  intros Hn. assert (1 ≤ n / 8) by (apply Z.div_le_lower_bound; lia).
  unfold range, segment_samples, segment_count.
  rewrite (proj2 (Z.eqb_neq (n / 8) 0)) by lia.
  rewrite (proj2 (Z.ltb_lt 0 (n / 8))) by lia.
  rewrite (proj2 (Z.ltb_lt 0 n)) by lia.
  rewrite Z.sub_0_r, map_map. f_equal. apply map_ext. intros j. lia.
Qed.

Lemma segment_samples_lt (n : Z) :
  8 ≤ n → Forall (λ i, (i < Z.to_nat n)%nat) (segment_samples n).
Proof.
  intros Hn. assert (1 ≤ n / 8) by (apply Z.div_le_lower_bound; lia).
  unfold segment_samples, segment_count.
  apply Forall_forall. intros i Hi. apply list_elem_of_In, in_map_iff in Hi.
  destruct Hi as (j & <- & Hj%in_seq).
  assert (0 ≤ (n - 1) / (n / 8)) by (apply Z.div_pos; lia).
  assert (Z.of_nat j ≤ (n - 1) / (n / 8)) by lia.
  assert ((n / 8) * ((n - 1) / (n / 8)) ≤ n - 1) by (apply Z.mul_div_le; lia).
  nia.
Qed.

(** With eight points or more the helper completes, and draws the two
    circles and one segment per sample. *)
Lemma draw_cone_outline_run `{NumpyTrig} (height : float) (n : Z) :
  8 ≤ n →
  draw_cone_outline height n = Io (map pyplot (cone_calls height n)) (inr tt).
Proof.
  intros Hn. unfold draw_cone_outline.
  rewrite np_linspace_samples by lia. rewrite bind_lift_inr.
  cbv zeta. rewrite range_segment_samples by done. rewrite bind_lift_inr.
  rewrite (for_calls _ _ (λ i, segment height n (Z.to_nat i))).
  - unfold cone_calls, circle. cbn. do 3 f_equal.
    rewrite !map_map. apply map_ext. intros i. by rewrite Nat2Z.id.
  - apply Forall_forall. intros v Hv. apply list_elem_of_In, in_map_iff in Hv.
    destruct Hv as (i & <- & Hi).
    pose proof (segment_samples_lt n Hn) as Hlt.
    rewrite Forall_forall in Hlt. apply list_elem_of_In, Hlt in Hi.
    rewrite !getitem_map by done. rewrite Nat2Z.id. reflexivity.
Qed.

Lemma segment_count_bounds (n : Z) :
  8 ≤ n → (8 ≤ segment_count n ≤ 15)%nat.
Proof.
  intros Hn. unfold segment_count.
  assert (1 ≤ n / 8) by (apply Z.div_le_lower_bound; lia).
  pose proof (Z.div_mod n 8 ltac:(lia)).
  pose proof (Z.mod_pos_bound n 8 ltac:(lia)).
  pose proof (Z.mul_div_le (n - 1) (n / 8) ltac:(lia)).
  pose proof (Z.mul_succ_div_gt (n - 1) (n / 8) ltac:(lia)).
  assert (7 ≤ (n - 1) / (n / 8) ≤ 14) by nia.
  lia.
Qed.

Lemma segment_count_eight (n : Z) :
  8 ≤ n → segment_count n = 8%nat ↔ n mod 8 = 0.
Proof.
  intros Hn. unfold segment_count.
  assert (1 ≤ n / 8) by (apply Z.div_le_lower_bound; lia).
  pose proof (Z.div_mod n 8 ltac:(lia)).
  pose proof (Z.mod_pos_bound n 8 ltac:(lia)).
  pose proof (Z.mul_div_le (n - 1) (n / 8) ltac:(lia)).
  pose proof (Z.mul_succ_div_gt (n - 1) (n / 8) ltac:(lia)).
  assert ((n - 1) / (n / 8) = 7 ↔ n mod 8 = 0) by (split; nia).
  assert (0 ≤ (n - 1) / (n / 8)) by (apply Z.div_pos; lia).
  lia.
Qed.

(** C1 as stated fails at the default point count: [range(0, 50, 6)] has
    nine elements, so nine segments are drawn. *)
Lemma default_cone_has_nine_segments :
  segment_samples default_num_points = [0; 6; 12; 18; 24; 30; 36; 42; 48]%nat
  ∧ length (connecting_lines
              (trace (draw_cone_outline (H := series_trig) 10
                        default_num_points))) = 9%nat
  ∧ length (connecting_lines
              (trace (draw_cone_outline (H := series_trig) 10
                        default_num_points))) ≠ 8%nat.
Proof. split; [|split]; [reflexivity|reflexivity|discriminate]. Qed.

(** C1, amended. With eight points or more the helper draws, in this
    order: the bottom circle, of radius [0.25 * height] at [z = 0]; the top
    circle, of radius [0.025 * height] at [z = height]; and one segment from
    the bottom to the top sample at each of the samples [0, k, 2k, ...]
    below [num_points], where [k = num_points // 8].  Both circles are
    sampled at the [num_points] angles of [np.linspace(0, 2*pi,
    num_points)].  The number of segments is [1 + (num_points - 1) // k]: it
    lies between 8 and 15 and is 8 exactly when [num_points] is a multiple
    of 8.  For the default of 50 points the angles are the multiples of
    [2*pi/49] up to [2*pi], and the segments are the nine at samples 0, 6,
    ..., 48. *)
Theorem cone_outline_shape `{NumpyTrig} (height : float) (n : Z) :
  8 ≤ n →
  draw_cone_outline height n
  = Io (pyplot (circle (height * 0.25) 0 n)
        :: pyplot (circle (height * 0.025) height n)
        :: map (λ i, pyplot (segment height n i)) (segment_samples n))
       (inr tt)
  ∧ segment_samples n
    = map (λ j, (j * Z.to_nat (n / 8))%nat) (seq 0 (segment_count n))
  ∧ Forall (λ i, (i < Z.to_nat n)%nat) (segment_samples n)
  ∧ (8 ≤ segment_count n ≤ 15)%nat
  ∧ (segment_count n = 8%nat ↔ n mod 8 = 0)
  ∧ map (cone_angle default_num_points) (seq 0 50)
    = map (λ i, (float_of_Z (Z.of_nat i) * (2 * np_pi / 49))%float) (seq 0 49)
      ++ [(2 * np_pi)%float]
  ∧ segment_samples default_num_points
    = [0; 6; 12; 18; 24; 30; 36; 42; 48]%nat.
Proof.
  intros Hn. repeat apply conj.
  - rewrite (draw_cone_outline_run _ _ Hn). unfold cone_calls. cbn [map].
    by rewrite map_map.
  - reflexivity.
  - by apply segment_samples_lt.
  - by apply segment_count_bounds.
  - by apply segment_count_bounds.
  - by apply segment_count_eight.
  - by apply segment_count_eight.
  - vm_compute. reflexivity.
  - reflexivity.
Qed.

Lemma cone_outline_shape_witness :
  outcome (draw_cone_outline (H := series_trig) 10 default_num_points)
  = inr tt
  ∧ segment_count default_num_points = 9%nat.
Proof.
  destruct (cone_outline_shape (H := series_trig) 10 default_num_points)
    as (Hrun & _ & _ & _ & _ & _ & Hsamples); [unfold default_num_points; lia|].
  split; [by rewrite Hrun|reflexivity].
Defined.

(** C9 as stated fails on a negative point count: the step is then
    [-1 // 8 = -1], not 0, and the helper has already failed in
    [np.linspace], before either circle is drawn. *)
Lemma negative_num_points :
  -1 / 8 = -1
  ∧ -1 / 8 ≠ 0
  ∧ draw_cone_outline (H := series_trig) 10 (-1)
    = Io [] (inl (ValueError NegativeSamples)).
Proof. split; [reflexivity|]. split; [discriminate|reflexivity]. Qed.

(** C9, amended. The helper completes exactly when [num_points] is at
    least 8.  For [0 <= num_points < 8] the step [num_points // 8] is 0 and
    [range] raises [ValueError] once the two circles are drawn; for a
    negative [num_points] the helper fails earlier, in [np.linspace], with
    nothing drawn. *)
Theorem cone_outline_needs_eight_points `{NumpyTrig} (height : float) (n : Z) :
  (n < 0 →
   draw_cone_outline height n = Io [] (inl (ValueError NegativeSamples)))
  ∧ (0 ≤ n < 8 →
     n / 8 = 0
     ∧ outcome (draw_cone_outline height n) = inl (ValueError ZeroStep)
     ∧ length (trace (draw_cone_outline height n)) = 2%nat)
  ∧ (8 ≤ n → outcome (draw_cone_outline height n) = inr tt).
Proof.
  split; [|split].
  - intros Hn. unfold draw_cone_outline, np_linspace.
    by rewrite (proj2 (Z.ltb_lt n 0)) by lia.
  - intros Hn. assert (Hstep : n / 8 = 0) by (apply Z.div_small; lia).
    split; [done|].
    unfold draw_cone_outline, np_linspace.
    rewrite (proj2 (Z.ltb_ge n 0)) by lia. rewrite Hstep. done.
  - intros Hn. by rewrite (draw_cone_outline_run _ _ Hn).
Qed.

Lemma cone_outline_needs_eight_points_witness :
  draw_cone_outline (H := series_trig) 10 (-3)
  = Io [] (inl (ValueError NegativeSamples))
  ∧ outcome (draw_cone_outline (H := series_trig) 10 7)
    = inl (ValueError ZeroStep)
  ∧ outcome (draw_cone_outline (H := series_trig) 10 8) = inr tt.
Proof.
  pose proof (cone_outline_needs_eight_points (H := series_trig) 10 (-3))
    as (Hneg & _ & _).
  pose proof (cone_outline_needs_eight_points (H := series_trig) 10 7)
    as (_ & Hzero & _).
  pose proof (cone_outline_needs_eight_points (H := series_trig) 10 8)
    as (_ & _ & Hok).
  split; [apply Hneg; lia|]. split; [apply Hzero; lia|apply Hok; lia].
Defined.

(** ** The renderers *)

Section Performs.
Context {X : Type} (obs : call → list X).

Lemma performs_seq (m k : io unit) (s1 s2 : list X) (out : exn + unit) :
  performs obs m s1 (inr tt) → performs obs k s2 out →
  performs obs (m;; k) (s1 ++ s2) out.
Proof.
  intros (c1 & -> & Hd1 & <-) (c2 & -> & Hd2 & <-).
  exists (c1 ++ c2). split; [|split].
  - rewrite bind_Io_inr. cbn [trace outcome]. by rewrite map_app.
  - by apply Forall_app.
  - apply flat_map_app.
Qed.

Lemma performs_plt (c : call) :
  draws c → performs obs (plt c) (obs c) (inr tt).
Proof.
  intros Hc. exists [c]. split; [done|]. split; [by constructor|].
  cbn. apply app_nil_r.
Qed.

Lemma performs_ret : performs obs (mret tt) [] (inr tt).
Proof. by exists []. Qed.

Lemma performs_raise (e : exn) : performs obs (lift (inl e)) [] (inl e).
Proof. by exists []. Qed.

Lemma performs_raise_seq (e : exn) (k : unit → io unit) :
  performs obs (lift (inl e) ≫= k) [] (inl e).
Proof. by exists []. Qed.

Lemma performs_seen (m : io unit) (s s' : list X) (out : exn + unit) :
  performs obs m s out → s = s' → performs obs m s' out.
Proof. by intros ? <-. Qed.

Lemma performs_cone `{NumpyTrig} (height : float) :
  (∀ xs ys zs a w, obs (plot3 xs ys zs a w) = []) →
  performs obs (draw_cone_outline height default_num_points) [] (inr tt).
Proof.
  intros Hplot. exists (cone_calls height default_num_points).
  rewrite draw_cone_outline_run by (unfold default_num_points; lia).
  split; [done|]. split.
  - unfold cone_calls. do 2 (constructor; [exact I|]).
    apply Forall_forall. intros c Hc. apply list_elem_of_In, in_map_iff in Hc.
    by destruct Hc as (i & <- & _).
  - unfold cone_calls, circle. cbn [flat_map]. rewrite !Hplot. cbn [app].
    induction (segment_samples default_num_points) as [|i l IH]; [done|].
    cbn [map flat_map]. unfold segment at 1. by rewrite Hplot.
Qed.
End Performs.

Ltac perform :=
  lazymatch goal with
  | |- performs _ (draw_cone_outline _ _) _ _ =>
      apply performs_cone; reflexivity
  | |- performs _ (plt _) _ _ => apply performs_plt; exact I
  | |- performs _ (mret _) _ _ => apply performs_ret
  | |- performs _ (lift (inl _)) _ _ => apply performs_raise
  | |- performs _ (mbind _ (lift (inl _))) _ _ => apply performs_raise_seq
  | |- performs _ (mbind _ _) _ _ => eapply performs_seq; [perform|perform]
  end.

Lemma set_lim_ok (lim : float → float → call) (lo hi : float) :
  is_finite lo && is_finite hi = true → set_lim lim lo hi = plt (lim lo hi).
Proof. intros Hf. unfold set_lim. by rewrite Hf. Qed.

Lemma set_lim_raises (lim : float → float → call) (lo hi : float) :
  is_finite lo && is_finite hi = false →
  set_lim lim lo hi = lift (inl (ValueError NonFiniteLimit)).
Proof. intros Hf. unfold set_lim. by rewrite Hf. Qed.

(** The figure the 3D renderer builds, read through [obs], when [obs]
    keeps none of the line plots: the calls before the limits, then the
    limits as far as they are accepted. *)
Ltac perform_3d positions metadata show_confidence :=
  unfold draw_3d; cbv zeta;
  destruct (is_finite (- (Metadata.tree_height metadata / 2))
            && is_finite (Metadata.tree_height metadata / 2)) eqn:Hxy;
    [rewrite !(set_lim_ok _ _ _ Hxy)|rewrite !(set_lim_raises _ _ _ Hxy)];
    (destruct (is_finite 0 && is_finite (Metadata.tree_height metadata))
       eqn:Hz;
     [rewrite !(set_lim_ok _ _ _ Hz)|rewrite !(set_lim_raises _ _ _ Hz)]);
    cbn [andb];
    destruct show_confidence, (predicted_of positions);
    lazymatch goal with
    | |- performs _ _ _ _ => idtac
    | _ => eexists
    end;
    (eapply performs_seen; [perform|reflexivity]).

Lemma draw_3d_data `{NumpyTrig}
    (positions : list Position.t) (metadata : Metadata.t)
    (show_confidence : bool) :
  let observed := observed_of positions in
  let predicted := predicted_of positions in
  ∃ out,
    performs plots_data (draw_3d positions metadata show_confidence)
      (scatter3 (map Position.x observed) (map Position.y observed)
                (map Position.z observed)
                (if show_confidence
                 then Viridis (map Position.confidence observed) else Blue)
                50 0.8 "Observed"
       :: (if show_confidence then [colorbar] else [])
       ++ match predicted with
          | [] => []
          | _ :: _ =>
              [scatter3 (map Position.x predicted) (map Position.y predicted)
                        (map Position.z predicted) Red 30 0.5 "Predicted"]
          end)
      out.
Proof. cbv zeta. perform_3d positions metadata show_confidence. Qed.

Lemma draw_3d_figure `{NumpyTrig}
    (positions : list Position.t) (metadata : Metadata.t)
    (show_confidence : bool) :
  ∃ out,
    performs creates_figure (draw_3d positions metadata show_confidence)
      [figure 12 10] out.
Proof. perform_3d positions metadata show_confidence. Qed.

Lemma draw_3d_limits `{NumpyTrig}
    (positions : list Position.t) (metadata : Metadata.t)
    (show_confidence : bool) :
  let h := Metadata.tree_height metadata in
  let xy := is_finite (- (h / 2)) && is_finite (h / 2) in
  let z := is_finite 0 && is_finite h in
  performs sets_limit (draw_3d positions metadata show_confidence)
    (if xy
     then set_xlim (- (h / 2)) (h / 2) :: set_ylim (- (h / 2)) (h / 2)
          :: (if z then [set_zlim 0 h] else [])
     else [])
    (if xy && z then inr tt else inl (ValueError NonFiniteLimit)).
Proof. cbv zeta. perform_3d positions metadata show_confidence. Qed.

(** The figure the 2D renderer builds: it always completes. *)
Ltac perform_2d :=
  unfold draw_2d; cbv zeta; (eapply performs_seen; [perform|reflexivity]).

Lemma draw_2d_figure (positions : list Position.t) (metadata : Metadata.t) :
  performs creates_figure (draw_2d positions metadata)
    [subplots 1 3 15 5] (inr tt).
Proof. perform_2d. Qed.

Lemma draw_2d_limits (positions : list Position.t) (metadata : Metadata.t) :
  performs sets_limit (draw_2d positions metadata) [] (inr tt).
Proof. perform_2d. Qed.

Lemma rendering_app (tr1 tr2 : list event) :
  rendering (tr1 ++ tr2) = rendering tr1 ++ rendering tr2.
Proof. apply flat_map_app. Qed.

Lemma rendering_pyplot (calls : list call) :
  rendering (map pyplot calls) = calls.
Proof.
  unfold rendering. induction calls as [|c calls IH]; [done|].
  cbn [map flat_map app]. by rewrite IH.
Qed.

Lemma rendering_stdout (lines : list text) : rendering (map stdout lines) = [].
Proof. unfold rendering. induction lines; by cbn. Qed.

(** A call made after a computation that built a figure. *)
Lemma then_call_run `{Matplotlib} (m : io unit) (calls : list call) (c : call) :
  m = Io (map pyplot calls) (inr tt) →
  then_call m c
  = match mpl_raises calls c with
    | Some e => Io (map pyplot calls) (inl e)
    | None => Io (map pyplot (calls ++ [c])) (inr tt)
    end.
Proof.
  intros ->. unfold then_call. cbn [trace]. rewrite rendering_pyplot.
  destruct (mpl_raises calls c); rewrite bind_Io_inr; cbn [trace outcome lift plt emit].
  - by rewrite app_nil_r.
  - by rewrite map_app.
Qed.

Lemma then_call_failed `{Matplotlib} (m : io unit) (tr : list event) (e : exn)
    (c : call) :
  m = Io tr (inl e) → then_call m c = Io tr (inl e).
Proof. by intros ->. Qed.

(** What a renderer does with the figure it built: the run of its last
    lines. *)
Lemma renderer_run `{Matplotlib} (saved : string → text) (m : io unit)
    (calls : list call) (out : exn + unit) (save_path : option string) :
  m = Io (map pyplot calls) out →
  match save_path with
  | Some path =>
      if truthy save_path then
        then_call (then_call m tight_layout) (savefig path 300);;
        print (saved path)
      else then_call (then_call m tight_layout) show
  | None => then_call (then_call m tight_layout) show
  end
  = Io (map pyplot calls ++ trace (rest out saved calls save_path))
       (outcome (rest out saved calls save_path)).
Proof.
  intros ->. unfold rest. destruct out as [e|[]].
  - cbn [trace outcome]. rewrite app_nil_r.
    by destruct save_path as [[|a s]|].
  - unfold ending, target.
    destruct save_path as [[|a s]|]; cbn [truthy];
      rewrite (then_call_run _ calls tight_layout eq_refl);
      (destruct (mpl_raises calls tight_layout) as [e|];
       [cbn [trace outcome]; by rewrite app_nil_r|]);
      rewrite (then_call_run _ (calls ++ [tight_layout]) _ eq_refl);
      match goal with
      | |- context [mpl_raises ?f ?c] => destruct (mpl_raises f c)
      end;
      cbn [trace outcome mbind io_bind print emit];
      by rewrite ?map_app, <- ?app_assoc.
Qed.

(** The four ways the last lines can go. *)
Lemma rest_cases `{Matplotlib} (out : exn + unit) (saved : string → text)
    (calls : list call) (save_path : option string) :
  (∃ e, rest out saved calls save_path = Io [] (inl e))
  ∨ (∃ e, rest out saved calls save_path = Io [pyplot tight_layout] (inl e))
  ∨ (∃ path, save_path = Some path ∧ path ≠ ""
             ∧ rest out saved calls save_path
               = Io [pyplot tight_layout; pyplot (savefig path 300);
                     stdout (saved path)] (inr tt))
  ∨ ((save_path = None ∨ save_path = Some "")
     ∧ rest out saved calls save_path
       = Io [pyplot tight_layout; pyplot show] (inr tt)).
Proof.
  unfold rest, ending, target. destruct out as [e|[]]; [by eauto|].
  destruct (mpl_raises calls tight_layout); [by eauto|].
  destruct save_path as [[|a s]|]; cbn [truthy];
    match goal with
    | |- context [mpl_raises ?f ?c] => destruct (mpl_raises f c)
    end; eauto 8.
Qed.

(** Calls that build the figure write no file, show nothing and print
    nothing: a trace that starts with them reads as what follows them. *)
Lemma drawing_is_silent (calls : list call) (fin : list event) :
  Forall draws calls →
  files_written (map pyplot calls ++ fin) = files_written fin
  ∧ displays (map pyplot calls ++ fin) = displays fin
  ∧ confirmations (map pyplot calls ++ fin) = confirmations fin
  ∧ statistics_printed (map pyplot calls ++ fin) = statistics_printed fin
  ∧ printed (map pyplot calls ++ fin) = printed fin.
Proof.
  unfold files_written, displays, confirmations, statistics_printed, printed.
  induction 1 as [|c calls Hc _ (IH1 & IH2 & IH3 & IH4 & IH5)]; [done|].
  cbn [map app flat_map List.filter existsb].
  rewrite IH1, IH3, IH4, IH5. by destruct c; cbn; rewrite ?IH2.
Qed.

Lemma axis_limits_pyplot (calls : list call) (fin : list event) :
  axis_limits (map pyplot calls ++ fin)
  = flat_map sets_limit calls ++ axis_limits fin.
Proof.
  unfold axis_limits. rewrite flat_map_app. f_equal.
  induction calls as [|c calls IH]; [done|].
  cbn [map flat_map]. rewrite IH. by destruct c.
Qed.

Lemma truthy_false (s : option string) :
  truthy s = false ↔ s = None ∨ s = Some "".
Proof.
  destruct s as [[|a s]|]; cbn; split; try done; try by auto.
  by intros [?|?].
Qed.

Lemma truthy_true (path : string) : path ≠ "" → truthy (Some path) = true.
Proof. by destruct path. Qed.

(** The run of each renderer: the calls that build the figure, then the
    last lines. *)
Lemma visualize_3d_run `{NumpyTrig} `{Matplotlib} {X} (obs : call → list X)
    (positions : list Position.t) (metadata : Metadata.t)
    (show_confidence : bool) (save_path : option string)
    (seen : list X) (out : exn + unit) :
  performs obs (draw_3d positions metadata show_confidence) seen out →
  ∃ calls,
    Forall draws calls
    ∧ flat_map obs calls = seen
    ∧ visualize_3d positions metadata show_confidence save_path
      = Io (map pyplot calls
            ++ trace (rest out SavedVisualization calls save_path))
           (outcome (rest out SavedVisualization calls save_path)).
Proof.
  intros (calls & Hm & Hd & Hs). exists calls. split; [done|]. split; [done|].
  unfold visualize_3d. cbv zeta. by apply renderer_run.
Qed.

Lemma visualize_2d_projections_run `{Matplotlib} {X} (obs : call → list X)
    (positions : list Position.t) (metadata : Metadata.t)
    (save_path : option string) (seen : list X) (out : exn + unit) :
  performs obs (draw_2d positions metadata) seen out →
  ∃ calls,
    Forall draws calls
    ∧ flat_map obs calls = seen
    ∧ visualize_2d_projections positions metadata save_path
      = Io (map pyplot calls
            ++ trace (rest out SavedProjections calls save_path))
           (outcome (rest out SavedProjections calls save_path)).
Proof.
  intros (calls & Hm & Hd & Hs). exists calls. split; [done|]. split; [done|].
  unfold visualize_2d_projections. cbv zeta. by apply renderer_run.
Qed.

(** C6 as stated fails for a tree height that is not finite, which the
    loader accepts ([json.load] reads [Infinity] and [NaN]): [set_xlim]
    then raises, and no limit is set. *)
Lemma infinite_tree_height_sets_no_limit :
  axis_limits
    (trace (@visualize_3d series_trig quiet scenario_positions
              (Metadata.Make 4 infinity 3 4 0) false None))
  = []
  ∧ outcome (@visualize_3d series_trig quiet scenario_positions
               (Metadata.Make 4 infinity 3 4 0) false None)
    = inl (ValueError NonFiniteLimit).
Proof. split; vm_compute; reflexivity. Qed.

Lemma axis_limits_rest `{Matplotlib} (out : exn + unit)
    (saved : string → text) (calls : list call) (save_path : option string) :
  axis_limits (trace (rest out saved calls save_path)) = [].
Proof.
  destruct (rest_cases out saved calls save_path)
    as [[e ->]|[[e ->]|[(path & _ & _ & ->)|[_ ->]]]]; reflexivity.
Qed.

(** C6, amended. When [-h/2], [h/2] and [h] are finite for the tree height
    [h], the limit calls of the 3D renderer are, in order, the x-limits and
    the y-limits [[-h/2, h/2]] and the z-limits [[0, h]], whatever the
    records, the colouring, the save path and the fate of the later calls;
    for [h = 10] they are [[-5, 5]], [[-5, 5]] and [[0, 10]].  When [h/2] is
    NaN or infinite, [set_xlim] raises [ValueError], the run ends there and
    no limit is set. *)
Theorem axis_limits_from_tree_height `{NumpyTrig} `{Matplotlib}
    (positions : list Position.t) (metadata : Metadata.t)
    (show_confidence : bool) (save_path : option string) :
  (is_finite (- (Metadata.tree_height metadata / 2))
   && is_finite (Metadata.tree_height metadata / 2) = true →
   is_finite (Metadata.tree_height metadata) = true →
   axis_limits
     (trace (visualize_3d positions metadata show_confidence save_path))
   = [set_xlim (- (Metadata.tree_height metadata / 2))
               (Metadata.tree_height metadata / 2);
      set_ylim (- (Metadata.tree_height metadata / 2))
               (Metadata.tree_height metadata / 2);
      set_zlim 0 (Metadata.tree_height metadata)])
  ∧ (is_finite (- (Metadata.tree_height metadata / 2))
     && is_finite (Metadata.tree_height metadata / 2) = false →
     axis_limits
       (trace (visualize_3d positions metadata show_confidence save_path))
     = []
     ∧ outcome (visualize_3d positions metadata show_confidence save_path)
       = inl (ValueError NonFiniteLimit))
  ∧ (∀ total_leds num_cameras num_observed num_predicted : Z,
       axis_limits
         (trace (visualize_3d positions
                   (Metadata.Make total_leds 10 num_cameras num_observed
                      num_predicted)
                   show_confidence save_path))
       = [set_xlim (-5) 5; set_ylim (-5) 5; set_zlim 0 10]).
Proof.
  assert (Hgen : ∀ metadata',
    axis_limits
      (trace (visualize_3d positions metadata' show_confidence save_path))
    = (if is_finite (- (Metadata.tree_height metadata' / 2))
          && is_finite (Metadata.tree_height metadata' / 2)
       then set_xlim (- (Metadata.tree_height metadata' / 2))
                     (Metadata.tree_height metadata' / 2)
            :: set_ylim (- (Metadata.tree_height metadata' / 2))
                        (Metadata.tree_height metadata' / 2)
            :: (if is_finite 0 && is_finite (Metadata.tree_height metadata')
                then [set_zlim 0 (Metadata.tree_height metadata')] else [])
       else [])).
  { intros metadata'.
    destruct (visualize_3d_run sets_limit positions metadata' show_confidence
                save_path _ _
                (draw_3d_limits positions metadata' show_confidence))
      as (calls & _ & Hlimits & ->).
    cbn [trace]. by rewrite axis_limits_pyplot, axis_limits_rest, app_nil_r. }
  split; [|split].
  - intros Hxy Hz. rewrite Hgen, Hxy. cbn [andb].
    change (is_finite 0) with true. cbn [andb]. by rewrite Hz.
  - intros Hxy. split; [by rewrite Hgen, Hxy|].
    pose proof (draw_3d_limits positions metadata show_confidence) as Hdraw.
    cbv zeta in Hdraw. rewrite Hxy in Hdraw. cbn [andb] in Hdraw.
    destruct (visualize_3d_run sets_limit positions metadata show_confidence
                save_path _ _ Hdraw) as (calls & _ & _ & ->).
    reflexivity.
  - intros total_leds num_cameras num_observed num_predicted.
    rewrite Hgen. reflexivity.
Qed.

Lemma axis_limits_from_tree_height_witness :
  axis_limits
    (trace (@visualize_3d series_trig quiet scenario_positions
              (example_metadata 4) false None))
  = [set_xlim (-5) 5; set_ylim (-5) 5; set_zlim 0 10]
  ∧ outcome (@visualize_3d series_trig quiet scenario_positions
               (Metadata.Make 4 nan 3 4 0) false None)
    = inl (ValueError NonFiniteLimit).
Proof.
  split.
  - apply (proj1 (axis_limits_from_tree_height (H := series_trig)
                    (H0 := quiet) scenario_positions (example_metadata 4)
                    false None)); reflexivity.
  - apply (proj1 (proj2 (axis_limits_from_tree_height (H := series_trig)
                           (H0 := quiet) scenario_positions
                           (Metadata.Make 4 nan 3 4 0) false None))).
    reflexivity.
Defined.





(** ** The command line *)

Lemma printed_pyplot (calls : list call) : printed (map pyplot calls) = [].
Proof. unfold printed. induction calls; by cbn. Qed.

Lemma printed_stdout (lines : list text) : printed (map stdout lines) = lines.
Proof.
  unfold printed. induction lines as [|t lines IH]; [done|].
  cbn [map flat_map app]. by rewrite IH.
Qed.

Lemma figures_app (tr1 tr2 : list event) :
  figures (tr1 ++ tr2) = figures tr1 ++ figures tr2.
Proof. unfold figures. by rewrite rendering_app, flat_map_app. Qed.

Lemma figures_stdout (lines : list text) : figures (map stdout lines) = [].
Proof. unfold figures. by rewrite rendering_stdout. Qed.

Lemma data_calls_app (tr1 tr2 : list event) :
  data_calls (tr1 ++ tr2) = data_calls tr1 ++ data_calls tr2.
Proof. unfold data_calls. by rewrite rendering_app, flat_map_app. Qed.

(** What is read off the last lines of a renderer. *)
Lemma rest_reads `{Matplotlib} (out : exn + unit) (saved : string → text)
    (calls : list call) (save_path : option string) :
  saved = SavedVisualization ∨ saved = SavedProjections →
  printed (trace (rest out saved calls save_path))
  = confirmations (trace (rest out saved calls save_path))
  ∧ statistics_printed (trace (rest out saved calls save_path)) = false
  ∧ figures (trace (rest out saved calls save_path)) = []
  ∧ data_calls (trace (rest out saved calls save_path)) = [].
Proof.
  intros Hsaved.
  destruct (rest_cases out saved calls save_path)
    as [[e ->]|[[e ->]|[(path & _ & _ & ->)|[_ ->]]]];
    by destruct Hsaved as [-> | ->].
Qed.

(** What is read off the whole trace of a renderer. *)
Lemma renderer_reads `{Matplotlib} (out : exn + unit) (saved : string → text)
    (calls : list call) (save_path : option string) :
  Forall draws calls →
  saved = SavedVisualization ∨ saved = SavedProjections →
  ∀ tr, tr = map pyplot calls ++ trace (rest out saved calls save_path) →
    printed tr = confirmations tr
    ∧ statistics_printed tr = false
    ∧ figures tr = flat_map creates_figure calls
    ∧ data_calls tr = flat_map plots_data calls.
Proof.
  intros Hd Hsaved tr ->.
  destruct (rest_reads out saved calls save_path Hsaved)
    as (Hp & Hs & Hf & Hdata).
  destruct (drawing_is_silent calls
              (trace (rest out saved calls save_path)) Hd)
    as (_ & _ & -> & -> & ->).
  rewrite figures_app, data_calls_app, Hf, Hdata, !app_nil_r.
  unfold figures, data_calls. by rewrite rendering_pyplot.
Qed.

(** What [main] does once the data is loaded. *)
Lemma main_loaded `{NumpyStats} `{NumpyTrig} `{Matplotlib}
    (load : string → exn + (list Position.t * Metadata.t)) (args : Args.t)
    (positions : list Position.t) (metadata : Metadata.t) :
  load (Args.json_file args) = inr (positions, metadata) →
  main load args
  = Io (stdout (Loading (Args.json_file args))
        :: stdout (Loaded (length positions))
        :: trace (chosen_statistics args positions metadata)
        ++ match outcome (chosen_statistics args positions metadata) with
           | inl _ => []
           | inr _ => trace (chosen_renderer args positions metadata)
           end)
       (match outcome (chosen_statistics args positions metadata) with
        | inl e => inl e
        | inr _ => outcome (chosen_renderer args positions metadata)
        end).
Proof.
  intros Hload.
  transitivity
    (Io [stdout (Loading (Args.json_file args));
         stdout (Loaded (length positions))] (inr tt);;
     chosen_statistics args positions metadata;;
     chosen_renderer args positions metadata).
  { unfold main, chosen_statistics, chosen_renderer, wants_statistics.
    by rewrite Hload. }
  destruct (chosen_statistics args positions metadata) as [trs [e|[]]].
  - cbn [mbind io_bind mret io_ret trace outcome app].
    by rewrite app_nil_r.
  - by cbn [mbind io_bind mret io_ret trace outcome app].
Qed.

Lemma main_not_loaded `{NumpyStats} `{NumpyTrig} `{Matplotlib}
    (load : string → exn + (list Position.t * Metadata.t)) (args : Args.t)
    (e : exn) :
  load (Args.json_file args) = inl e →
  main load args = Io [stdout (Loading (Args.json_file args))] (inl e).
Proof. intros Hload. unfold main. by rewrite Hload. Qed.

Lemma visualize_3d_reads `{NumpyTrig} `{Matplotlib}
    (positions : list Position.t) (metadata : Metadata.t)
    (show_confidence : bool) (save_path : option string) :
  printed (trace (visualize_3d positions metadata show_confidence save_path))
  = confirmations
      (trace (visualize_3d positions metadata show_confidence save_path))
  ∧ statistics_printed
      (trace (visualize_3d positions metadata show_confidence save_path))
    = false
  ∧ figures
      (trace (visualize_3d positions metadata show_confidence save_path))
    = [figure 12 10].
Proof.
  destruct (draw_3d_figure positions metadata show_confidence)
    as (out0 & Hdraw).
  destruct (visualize_3d_run creates_figure positions metadata
              show_confidence save_path _ _ Hdraw)
    as (calls & Hd & Hseen & ->).
  cbn [trace].
  destruct (renderer_reads out0 SavedVisualization calls save_path Hd
              (or_introl eq_refl) _ eq_refl) as (Hp & Hs & Hf & _).
  by rewrite Hp, Hs, Hf.
Qed.

Lemma visualize_2d_projections_reads `{Matplotlib}
    (positions : list Position.t) (metadata : Metadata.t)
    (save_path : option string) :
  printed (trace (visualize_2d_projections positions metadata save_path))
  = confirmations
      (trace (visualize_2d_projections positions metadata save_path))
  ∧ statistics_printed
      (trace (visualize_2d_projections positions metadata save_path))
    = false
  ∧ figures (trace (visualize_2d_projections positions metadata save_path))
    = [subplots 1 3 15 5].
Proof.
  destruct (visualize_2d_projections_run creates_figure positions metadata
              save_path _ _ (draw_2d_figure positions metadata))
    as (calls & Hd & Hseen & ->).
  cbn [trace].
  destruct (renderer_reads (inr tt) SavedProjections calls save_path Hd
              (or_intror eq_refl) _ eq_refl) as (Hp & Hs & Hf & _).
  by rewrite Hp, Hs, Hf.
Qed.

(** What is read off the trace of the renderer [main] chooses. *)
Lemma chosen_renderer_reads `{NumpyTrig} `{Matplotlib} (args : Args.t)
    (positions : list Position.t) (metadata : Metadata.t) :
  printed (trace (chosen_renderer args positions metadata))
  = confirmations (trace (chosen_renderer args positions metadata))
  ∧ statistics_printed (trace (chosen_renderer args positions metadata))
    = false
  ∧ figures (trace (chosen_renderer args positions metadata))
    = (if Args.stats args then []
       else [if Args.projections args
             then subplots 1 3 15 5 else figure 12 10]).
Proof.
  unfold chosen_renderer.
  destruct (Args.stats args); [done|]. cbn [negb].
  destruct (Args.projections args);
    [apply visualize_2d_projections_reads|apply visualize_3d_reads].
Qed.

Lemma chosen_statistics_run `{NumpyStats} (args : Args.t)
    (positions : list Position.t) (metadata : Metadata.t) :
  chosen_statistics args positions metadata
  = if wants_statistics args
    then Io (map stdout (report_lines positions metadata))
            (report_outcome positions metadata)
    else Io [] (inr tt).
Proof.
  unfold chosen_statistics. by rewrite print_statistics_run.
Qed.

Lemma statistics_printed_app (tr1 tr2 : list event) :
  statistics_printed (tr1 ++ tr2)
  = statistics_printed tr1 || statistics_printed tr2.
Proof. apply existsb_app. Qed.

Lemma statistics_printed_report `{NumpyStats}
    (positions : list Position.t) (metadata : Metadata.t) :
  statistics_printed (map stdout (report_lines positions metadata)) = true.
Proof. reflexivity. Qed.

Lemma wants_statistics_iff (args : Args.t) :
  wants_statistics args = true
  ↔ Args.stats args = true
    ∨ (Args.projections args = false
       ∧ (Args.save args = None ∨ Args.save args = Some "")).
Proof.
  unfold wants_statistics. rewrite <- truthy_false.
  destruct (Args.stats args), (Args.projections args),
    (truthy (Args.save args)); cbn; split; try done; auto;
    by intros [?|[? ?]].
Qed.

(** C8 as stated fails for [--save ''] alone: the flag is given, and the
    statistics are printed all the same. *)
Lemma empty_save_prints_statistics :
  Args.save (example_args (Some "") false false) = Some ""
  ∧ Args.stats (example_args (Some "") false false) = false
  ∧ statistics_printed
      (trace (@main sequential_stats series_trig quiet example_load
                (example_args (Some "") false false)))
    = true.
Proof. repeat split. Qed.

(** C8, amended. After a successful load, the statistics are printed if
    and only if [--stats] is given, or [--projections] is not given and
    [--save] is absent or empty.  With [--stats] nothing is rendered. *)
Theorem statistics_selected_by_flags `{NumpyStats} `{NumpyTrig} `{Matplotlib}
    (load : string → exn + (list Position.t * Metadata.t)) (args : Args.t)
    (positions : list Position.t) (metadata : Metadata.t) :
  load (Args.json_file args) = inr (positions, metadata) →
  (statistics_printed (trace (main load args)) = true
   ↔ Args.stats args = true
     ∨ (Args.projections args = false
        ∧ (Args.save args = None ∨ Args.save args = Some "")))
  ∧ (Args.stats args = true → rendering (trace (main load args)) = []).
Proof.
  intros Hload. rewrite (main_loaded _ _ _ _ Hload). cbn [trace].
  rewrite <- wants_statistics_iff, chosen_statistics_run.
  destruct (chosen_renderer_reads args positions metadata)
    as (_ & Hsilent & _).
  split.
  - change (statistics_printed (stdout ?a :: stdout (Loaded ?n) :: ?l))
      with (statistics_printed l).
    rewrite statistics_printed_app.
    destruct (wants_statistics args); cbn [trace outcome]; [done|].
    by rewrite Hsilent.
  - intros Hstats. unfold wants_statistics, chosen_renderer.
    rewrite Hstats. cbn [orb negb trace outcome mret io_ret].
    change (stdout ?a :: stdout ?b :: ?l) with (map stdout [a; b] ++ l).
    rewrite !rendering_app, !rendering_stdout.
    by destruct (report_outcome positions metadata).
Qed.

Lemma statistics_selected_by_flags_witness :
  statistics_printed
    (trace (@main sequential_stats series_trig quiet example_load
              (example_args (Some "out.png") false false)))
  = false
  ∧ rendering
      (trace (@main sequential_stats series_trig quiet example_load
                (example_args None false true)))
    = [].
Proof.
  pose proof (statistics_selected_by_flags (H := sequential_stats)
                (H0 := series_trig) (H1 := quiet) example_load
                (example_args (Some "out.png") false false)
                scenario_positions (example_metadata 4) eq_refl)
    as (Hiff & _).
  pose proof (statistics_selected_by_flags (H := sequential_stats)
                (H0 := series_trig) (H1 := quiet) example_load
                (example_args None false true)
                scenario_positions (example_metadata 4) eq_refl)
    as (_ & Hnone).
  split; [|by apply Hnone].
  apply not_true_is_false. intros Hprinted. apply Hiff in Hprinted.
  destruct Hprinted as [Hs|(_ & [Hs|Hs])]; discriminate Hs.
Defined.

(** A document with the three required keys and one of the optional ones. *)
Lemma load_led_positions_contract_witness :
  ∃ metadata : gmap string json,
    load_led_positions example_document = inr (JArr [], metadata)
    ∧ metadata !! "num_cameras" = Some (JInt 0)
    ∧ metadata !! "num_observed" = Some (JInt 2).
Proof.
  destruct (proj2 (load_led_positions_contract example_document)
              (JArr []) (JInt 2) (JFloat 1.5) eq_refl eq_refl eq_refl)
    as (metadata & Hload & _ & _ & Hcam & Hobs & _).
  exists metadata. by repeat split.
Defined.

(** * Further properties *)

(** ** The statistics printer, on every input *)

Lemma fits_share (count whole : Z) :
  0 ≤ count ≤ whole → 0 < whole → fits (100 * count) whole = true.
Proof.
  intros Hc Hw. unfold fits. apply Z.ltb_lt.
  pose proof float_overflow_large. nia.
Qed.

(** X1. The statistics printer completes exactly when [total_leds] is not
    zero, neither percentage overflows a float and there is at least one
    record; for counts between zero and [total_leds], exactly when
    [total_leds] is not zero and there is at least one record.  No value
    of a coordinate or of a confidence makes it fail.  The only exceptions
    it raises are the two of the division and the [ValueError] of [min] on
    an empty sequence. *)
Theorem print_statistics_completes `{NumpyStats}
    (positions : list Position.t) (metadata : Metadata.t) :
  (outcome (print_statistics positions metadata) = inr tt
   ↔ Metadata.total_leds metadata ≠ 0
     ∧ fits (100 * Metadata.num_observed metadata)
            (Metadata.total_leds metadata) = true
     ∧ fits (100 * Metadata.num_predicted metadata)
            (Metadata.total_leds metadata) = true
     ∧ positions ≠ [])
  ∧ (0 ≤ Metadata.num_observed metadata ≤ Metadata.total_leds metadata →
     0 ≤ Metadata.num_predicted metadata ≤ Metadata.total_leds metadata →
     (outcome (print_statistics positions metadata) = inr tt
      ↔ Metadata.total_leds metadata ≠ 0 ∧ positions ≠ []))
  ∧ (outcome (print_statistics positions metadata) = inr tt
     ∨ outcome (print_statistics positions metadata) = inl ZeroDivisionError
     ∨ outcome (print_statistics positions metadata) = inl OverflowError
     ∨ outcome (print_statistics positions metadata)
       = inl (ValueError EmptySequence)).
Proof.
  rewrite print_statistics_run. cbn [outcome].
  split; [apply report_outcome_ok|]. split.
  - intros Ho Hp. rewrite report_outcome_ok. split; [by intros (? & _ & _ & ?)|].
    intros [Ht Hne]. split; [done|].
    split; [|split; [|done]]; apply fits_share; lia.
  - unfold report_outcome, truediv.
    destruct (Metadata.total_leds metadata =? 0); [by auto|].
    destruct (fits (100 * Metadata.num_observed metadata) _); [|by auto].
    destruct (fits (100 * Metadata.num_predicted metadata) _); [|by auto].
    destruct positions; by auto.
Qed.

(** X2. The camera line is printed exactly when [num_cameras] is not zero,
    and then once, with that count: on every input, also when the run
    fails later. *)
Theorem camera_line_iff_nonzero `{NumpyStats}
    (positions : list Position.t) (metadata : Metadata.t) :
  camera_report (trace (print_statistics positions metadata))
  = if Metadata.num_cameras metadata =? 0 then []
    else [NumberOfCameras (Metadata.num_cameras metadata)].
Proof. apply camera_report_run. Qed.

Lemma observed_of_idemp (positions : list Position.t) :
  observed_of (observed_of positions) = observed_of positions.
Proof.
  apply observed_of_all, Forall_forall. intros p Hp.
  apply list_elem_of_In, List.filter_In in Hp as [_ Hp].
  by apply negb_true_iff.
Qed.

Lemma confidence_lines_observed `{NumpyStats}
    (positions positions' : list Position.t) :
  observed_of positions = observed_of positions' →
  confidence_lines positions = confidence_lines positions'
  ∧ confidence_lines positions = confidence_lines (observed_of positions).
Proof.
  intros Hobs. unfold confidence_lines. by rewrite observed_of_idemp, Hobs.
Qed.

(** X3. The confidence block depends on the records only through the
    observed ones: two runs with the same metadata over lists with the
    same observed records print the same block, so predicted records,
    wherever they stand in the list, do not change it.  Nor does the
    metadata, between two runs that both get past the percentages (a
    non-zero total and percentages that do not overflow). *)
Theorem confidence_block_ignores_predicted `{NumpyStats}
    (positions positions' : list Position.t) (metadata metadata' : Metadata.t) :
  observed_of positions = observed_of positions' →
  confidence_report (trace (print_statistics positions metadata))
  = confidence_report (trace (print_statistics positions' metadata))
  ∧ confidence_report (trace (print_statistics positions metadata))
    = confidence_report
        (trace (print_statistics (observed_of positions) metadata))
  ∧ (Metadata.total_leds metadata ≠ 0 →
     fits (100 * Metadata.num_observed metadata)
          (Metadata.total_leds metadata) = true →
     fits (100 * Metadata.num_predicted metadata)
          (Metadata.total_leds metadata) = true →
     Metadata.total_leds metadata' ≠ 0 →
     fits (100 * Metadata.num_observed metadata')
          (Metadata.total_leds metadata') = true →
     fits (100 * Metadata.num_predicted metadata')
          (Metadata.total_leds metadata') = true →
     confidence_report (trace (print_statistics positions metadata))
     = confidence_report (trace (print_statistics positions' metadata'))).
Proof.
  intros Hobs. rewrite !confidence_report_run.
  destruct (confidence_lines_observed positions positions' Hobs)
    as [Hsame Hown].
  rewrite <- Hsame, <- Hown. split; [done|]. split; [done|].
  intros Ht Ho Hp Ht' Ho' Hp'.
  by rewrite !truediv_fits.
Qed.

Lemma confidence_block_ignores_predicted_witness :
  confidence_report
    (trace (print_statistics (H := sequential_stats)
              (example_position 0.3 true :: scenario_positions
               ++ [example_position 0.7 true])
              (example_metadata 6)))
  = confidence_report
      (trace (print_statistics (H := sequential_stats) scenario_positions
                (example_metadata 4))).
Proof.
  apply (confidence_block_ignores_predicted (H := sequential_stats));
    [reflexivity|discriminate|reflexivity|reflexivity|discriminate
    |reflexivity|reflexivity].
Defined.

Lemma percent_bounds (count total : Z) :
  0 ≤ count ≤ total → 0 < total →
  (0 <= inject_Z (100 * count) / inject_Z total)%Q
  ∧ (inject_Z (100 * count) / inject_Z total <= 100)%Q.
Proof.
  intros Hc Ht.
  assert (0 < inject_Z total)%Q by (unfold Qlt; cbn; lia).
  split.
  - apply Qle_shift_div_l; [done|]. rewrite Qmult_0_l.
    unfold Qle; cbn; lia.
  - apply Qle_shift_div_r; [done|].
    change 100%Q with (inject_Z 100). rewrite <- inject_Z_mult.
    unfold Qle; cbn; lia.
Qed.

(** X4. The high-confidence line never reports more records than were
    observed, and its percentage lies between 0 and 100. *)
Theorem high_confidence_is_a_share `{NumpyStats}
    (positions : list Position.t) (metadata : Metadata.t)
    (count : Z) (percent : Q) :
  Metadata.total_leds metadata ≠ 0 →
  In (HighConfidence count percent)
     (confidence_report (trace (print_statistics positions metadata))) →
  0 ≤ count ≤ Z.of_nat (length (observed_of positions))
  ∧ (0 <= percent)%Q ∧ (percent <= 100)%Q.
Proof.
  intros Ht. rewrite confidence_report_run.
  destruct (truediv (100 * Metadata.num_observed metadata) _); [done|].
  destruct (truediv (100 * Metadata.num_predicted metadata) _); [done|].
  unfold confidence_lines.
  destruct (observed_of positions) as [|o os]; [done|].
  intros Hin. repeat destruct Hin as [Hin|Hin]; try discriminate; [|done].
  injection Hin as <- <-.
  pose proof (high_confidence_bounds (map Position.confidence (o :: os)))
    as Hb.
  rewrite length_map in *. split; [done|].
  apply percent_bounds; [done|]. cbn [length]. lia.
Qed.

Lemma high_confidence_is_a_share_witness :
  0 ≤ 2 ≤ Z.of_nat (length (observed_of scenario_positions))
  ∧ (0 <= inject_Z 200 / inject_Z 4)%Q
  ∧ (inject_Z 200 / inject_Z 4 <= 100)%Q.
Proof.
  apply (high_confidence_is_a_share (H := sequential_stats)
           scenario_positions (example_metadata 4) 2
           (inject_Z 200 / inject_Z 4)%Q).
  - discriminate.
  - vm_compute. do 4 right. by left.
Defined.



(** The builtin [min] and [max] return an element of the list. *)
Lemma fold_left_choice (f : float → float → float) (l : list float) (v : float) :
  (∀ m w, f m w = m ∨ f m w = w) → In (fold_left f l v) (v :: l).
Proof.
  intros Hf. revert v. induction l as [|w l IH]; intros v; [by left|].
  cbn [fold_left]. destruct (IH (f v w)) as [Heq|Hin].
  - destruct (Hf v w) as [Hv|Hw].
    + left. congruence.
    + right. left. congruence.
  - right. by right.
Qed.

Lemma range_line_attained (line : float → float → text) (values : list float) :
  values ≠ [] →
  ∃ lo hi, range_line line values = [line lo hi]
           ∧ In lo values ∧ In hi values.
Proof.
  intros Hne. destruct values as [|v l]; [done|].
  unfold range_line, min_, max_. do 2 eexists. split; [reflexivity|].
  split; apply fold_left_choice; intros m w; case_match; auto.
Qed.

(** X6. On a run that completes, the five extent lines are printed in the
    order x, y, z, height, angle, and both ends of each are values that
    occur in the records: the coordinate (height, angle) of some record. *)
Theorem extents_are_attained `{NumpyStats}
    (positions : list Position.t) (metadata : Metadata.t) :
  outcome (print_statistics positions metadata) = inr tt →
  ∃ x0 x1 y0 y1 z0 z1 h0 h1 a0 a1 : float,
    spatial_report (trace (print_statistics positions metadata))
    = [XRange x0 x1; YRange y0 y1; ZRange z0 z1; HeightRange h0 h1;
       AngleRange a0 a1]
    ∧ (In x0 (map Position.x positions) ∧ In x1 (map Position.x positions))
    ∧ (In y0 (map Position.y positions) ∧ In y1 (map Position.y positions))
    ∧ (In z0 (map Position.z positions) ∧ In z1 (map Position.z positions))
    ∧ (In h0 (map Position.height positions)
       ∧ In h1 (map Position.height positions))
    ∧ (In a0 (map Position.angle positions)
       ∧ In a1 (map Position.angle positions)).
Proof.
  rewrite spatial_report_run, print_statistics_run. cbn [outcome].
  intros (Ht & Ho & Hp & Hne)%report_outcome_ok.
  rewrite !truediv_fits by done. unfold spatial_lines.
  assert (Hmap : ∀ f : Position.t → float, map f positions ≠ []).
  { intros f. by destruct positions. }
  destruct (range_line_attained XRange _ (Hmap Position.x))
    as (x0 & x1 & -> & ? & ?).
  destruct (range_line_attained YRange _ (Hmap Position.y))
    as (y0 & y1 & -> & ? & ?).
  destruct (range_line_attained ZRange _ (Hmap Position.z))
    as (z0 & z1 & -> & ? & ?).
  destruct (range_line_attained HeightRange _ (Hmap Position.height))
    as (h0 & h1 & -> & ? & ?).
  destruct (range_line_attained AngleRange _ (Hmap Position.angle))
    as (a0 & a1 & -> & ? & ?).
  exists x0, x1, y0, y1, z0, z1, h0, h1, a0, a1. by repeat split.
Qed.

Lemma extents_are_attained_witness :
  ∃ x0 x1 y0 y1 z0 z1 h0 h1 a0 a1 : float,
    spatial_report
      (trace (print_statistics (H := sequential_stats) scenario_positions
                (example_metadata 4)))
    = [XRange x0 x1; YRange y0 y1; ZRange z0 z1; HeightRange h0 h1;
       AngleRange a0 a1]
    ∧ In x0 (map Position.x scenario_positions).
Proof.
  destruct (extents_are_attained (H := sequential_stats) scenario_positions
              (example_metadata 4))
    as (x0 & x1 & y0 & y1 & z0 & z1 & h0 & h1 & a0 & a1 & Hr & [Hx _] & _);
    [reflexivity|].
  by exists x0, x1, y0, y1, z0, z1, h0, h1, a0, a1.
Defined.
(** ** The loader, on every document *)

(** X7. The loader reports the first required key that is missing, in the
    order [positions], [total_leds], [tree_height]: an object without
    [positions] raises [KeyError('positions')] whatever else it holds, and
    so on; a document that is not an object raises [TypeError]. *)
Theorem load_led_positions_first_missing_key (data : json) :
  (∀ members : gmap string json,
     data = JObj members →
     (members !! "positions" = None →
      load_led_positions data = inl (KeyError "positions"))
     ∧ (is_Some (members !! "positions") →
        members !! "total_leds" = None →
        load_led_positions data = inl (KeyError "total_leds"))
     ∧ (is_Some (members !! "positions") →
        is_Some (members !! "total_leds") →
        members !! "tree_height" = None →
        load_led_positions data = inl (KeyError "tree_height")))
  ∧ ((∀ members : gmap string json, data ≠ JObj members) →
     load_led_positions data = inl TypeError).
Proof.
  split.
  - intros members ->. unfold load_led_positions. cbn.
    split; [|split].
    + by intros ->.
    + by intros [p ->] ->.
    + by intros [p ->] [t ->] ->.
  - intros Hnot. destruct data; try reflexivity. by destruct (Hnot members).
Qed.

Lemma load_led_positions_first_missing_key_witness :
  load_led_positions (JObj (<["tree_height" := JFloat 2]> ∅))
  = inl (KeyError "positions")
  ∧ load_led_positions (JObj (<["positions" := JArr []]> ∅))
    = inl (KeyError "total_leds")
  ∧ load_led_positions (JArr []) = inl TypeError.
Proof.
  split; [|split].
  - by apply (proj1 (load_led_positions_first_missing_key _) _ eq_refl).
  - apply (proj1 (load_led_positions_first_missing_key _) _ eq_refl);
      [by eexists|done].
  - apply (proj2 (load_led_positions_first_missing_key _)). done.
Defined.

(** X8. The loader reads six keys and nothing else: adding or changing any
    other key of the document changes neither its result nor its error. *)
Theorem load_led_positions_ignores_other_keys
    (members : gmap string json) (key : string) (value : json) :
  key ∉ ["positions"; "total_leds"; "tree_height"; "num_cameras";
         "num_observed"; "num_predicted"] →
  load_led_positions (JObj (<[key := value]> members))
  = load_led_positions (JObj members).
Proof.
  intros Hkey. unfold load_led_positions, subscript, get.
  rewrite !lookup_insert_ne; [done|..];
    intros Heq; apply Hkey; rewrite Heq; repeat constructor.
Qed.

Lemma load_led_positions_ignores_other_keys_witness :
  load_led_positions
    (JObj (<["generator" := JStr "app"]>
           (<["positions" := JArr []]>
            (<["total_leds" := JInt 0]>
             (<["tree_height" := JFloat 2]> ∅)))))
  = load_led_positions
      (JObj (<["positions" := JArr []]>
             (<["total_leds" := JInt 0]>
              (<["tree_height" := JFloat 2]> ∅)))).
Proof.
  apply load_led_positions_ignores_other_keys.
  intros Hin. repeat (apply elem_of_cons in Hin as [Hin|Hin]; [discriminate|]).
  by apply elem_of_nil in Hin.
Defined.


(** ** The renderers, call by call *)

Lemma visualize_3d_data `{NumpyTrig} `{Matplotlib}
    (positions : list Position.t) (metadata : Metadata.t)
    (show_confidence : bool) (save_path : option string) :
  data_calls
    (trace (visualize_3d positions metadata show_confidence save_path))
  = scatter3 (map Position.x (observed_of positions))
             (map Position.y (observed_of positions))
             (map Position.z (observed_of positions))
             (if show_confidence
              then Viridis (map Position.confidence (observed_of positions))
              else Blue)
             50 0.8 "Observed"
    :: (if show_confidence then [colorbar] else [])
    ++ match predicted_of positions with
       | [] => []
       | _ :: _ =>
           [scatter3 (map Position.x (predicted_of positions))
                     (map Position.y (predicted_of positions))
                     (map Position.z (predicted_of positions))
                     Red 30 0.5 "Predicted"]
       end.
Proof.
  destruct (draw_3d_data positions metadata show_confidence)
    as (out0 & Hdraw).
  destruct (visualize_3d_run plots_data positions metadata show_confidence
              save_path _ _ Hdraw) as (calls & Hd & Hseen & ->).
  cbn [trace].
  destruct (renderer_reads out0 SavedVisualization calls save_path Hd
              (or_introl eq_refl) _ eq_refl) as (_ & _ & _ & ->).
  done.
Qed.

(** X9. The 3D renderer plots every record exactly once: one scatter of
    the observed records (coloured by their confidences with a colour bar
    in confidence mode, plain blue without one otherwise) and, only when
    some record is predicted, one scatter of the predicted records in red.
    These are all the data it plots, and together they have as many points
    as there are records. *)
Theorem visualize_3d_plots_each_record_once `{NumpyTrig} `{Matplotlib}
    (positions : list Position.t) (metadata : Metadata.t)
    (show_confidence : bool) (save_path : option string) :
  let observed := observed_of positions in
  let predicted := predicted_of positions in
  data_calls
    (trace (visualize_3d positions metadata show_confidence save_path))
  = scatter3 (map Position.x observed) (map Position.y observed)
             (map Position.z observed)
             (if show_confidence
              then Viridis (map Position.confidence observed) else Blue)
             50 0.8 "Observed"
    :: (if show_confidence then [colorbar] else [])
    ++ match predicted with
       | [] => []
       | _ :: _ =>
           [scatter3 (map Position.x predicted) (map Position.y predicted)
                     (map Position.z predicted) Red 30 0.5 "Predicted"]
       end
  ∧ points (data_calls
              (trace (visualize_3d positions metadata show_confidence
                        save_path)))
    = length positions.
Proof.
  intros observed predicted.
  rewrite visualize_3d_data. fold observed predicted. split; [done|].
  assert (Hlen : (length observed + length predicted = length positions)%nat).
  { subst observed predicted. unfold observed_of, predicted_of.
    rewrite Nat.add_comm. apply List.filter_length. }
  clearbody observed predicted.
  destruct show_confidence, predicted; unfold points, list_sum;
    cbn [map fold_right app length] in *; rewrite ?length_map; lia.
Qed.

(** Selecting by index with a mask is filtering. *)
Lemma flat_map_shift {A} (h : nat → list A) (l : list nat) :
  flat_map h (map S l) = flat_map (λ i, h (S i)) l.
Proof. induction l as [|i l IH]; [done|]. cbn. by rewrite IH. Qed.

Lemma pick_map {A} (f : A → float) (g : A → bool) (l : list A) :
  pick (map f l) (map g l) = map f (List.filter g l).
Proof.
  unfold pick. rewrite length_map.
  induction l as [|a l IH]; [done|].
  cbn [length seq flat_map]. rewrite <- seq_shift, flat_map_shift.
  rewrite (flat_map_ext _
             (λ i, match map g l !! i, map f l !! i with
                   | Some true, Some v => [v]
                   | _, _ => []
                   end)) by done.
  rewrite IH. cbn [List.filter]. by destruct (g a) eqn:Hg; cbn; rewrite Hg.
Qed.

Lemma pick_observed (f : Position.t → float) (positions : list Position.t) :
  pick (map f positions)
       (map (λ p, negb (Position.predicted p)) positions)
  = map f (observed_of positions).
Proof. apply pick_map. Qed.

Lemma pick_predicted (f : Position.t → float) (positions : list Position.t) :
  pick (map f positions)
       (map negb (map (λ p, negb (Position.predicted p)) positions))
  = map f (predicted_of positions).
Proof.
  rewrite map_map, pick_map. unfold predicted_of. f_equal.
  apply List.filter_ext. intros p. apply negb_involutive.
Qed.

Lemma draw_2d_data (positions : list Position.t) (metadata : Metadata.t) :
  performs plots_data (draw_2d positions metadata)
    [scatter2 AxTop (map Position.x (observed_of positions))
              (map Position.y (observed_of positions))
              Blue 30 0.6 (Some "Observed");
     scatter2 AxTop (map Position.x (predicted_of positions))
              (map Position.y (predicted_of positions))
              Red 20 0.4 (Some "Predicted");
     scatter2 AxSide (map Position.x (observed_of positions))
              (map Position.z (observed_of positions)) Blue 30 0.6 None;
     scatter2 AxSide (map Position.x (predicted_of positions))
              (map Position.z (predicted_of positions)) Red 20 0.4 None;
     scatter2 AxFront (map Position.y (observed_of positions))
              (map Position.z (observed_of positions)) Blue 30 0.6 None;
     scatter2 AxFront (map Position.y (predicted_of positions))
              (map Position.z (predicted_of positions)) Red 20 0.4 None]
    (inr tt).
Proof.
  unfold draw_2d. cbv zeta. rewrite !pick_observed, !pick_predicted.
  eapply performs_seen; [perform|reflexivity].
Qed.

(** X10. The 2D renderer selects by index, yet draws the same partition as
    the 3D renderer: in each of its three panels the blue scatter holds
    the observed records and the red scatter the predicted ones (x against
    y on top, x against z on the side, y against z in front), so every
    record appears exactly once in every panel.  Only the two scatters of
    the top view are labelled. *)
Theorem visualize_2d_projections_plots_the_partition `{Matplotlib}
    (positions : list Position.t) (metadata : Metadata.t)
    (save_path : option string) :
  let observed := observed_of positions in
  let predicted := predicted_of positions in
  data_calls (trace (visualize_2d_projections positions metadata save_path))
  = [scatter2 AxTop (map Position.x observed) (map Position.y observed)
              Blue 30 0.6 (Some "Observed");
     scatter2 AxTop (map Position.x predicted) (map Position.y predicted)
              Red 20 0.4 (Some "Predicted");
     scatter2 AxSide (map Position.x observed) (map Position.z observed)
              Blue 30 0.6 None;
     scatter2 AxSide (map Position.x predicted) (map Position.z predicted)
              Red 20 0.4 None;
     scatter2 AxFront (map Position.y observed) (map Position.z observed)
              Blue 30 0.6 None;
     scatter2 AxFront (map Position.y predicted) (map Position.z predicted)
              Red 20 0.4 None]
  ∧ points (data_calls
              (trace (visualize_2d_projections positions metadata save_path)))
    = (3 * length positions)%nat.
Proof.
  intros observed predicted.
  destruct (visualize_2d_projections_run plots_data positions metadata
              save_path _ _ (draw_2d_data positions metadata))
    as (calls & Hd & Hseen & ->).
  cbn [trace].
  destruct (renderer_reads (inr tt) SavedProjections calls save_path Hd
              (or_intror eq_refl) _ eq_refl) as (_ & _ & _ & ->).
  rewrite Hseen. fold observed predicted. split; [done|].
  assert (Hlen : (length observed + length predicted = length positions)%nat).
  { subst observed predicted. unfold observed_of, predicted_of.
    rewrite Nat.add_comm. apply List.filter_length. }
  clearbody observed predicted.
  unfold points, list_sum. cbn [map fold_right]. rewrite !length_map. lia.
Qed.

(** What a renderer prints, by how it ends. *)
Lemma renderer_prints `{Matplotlib} (out0 : exn + unit)
    (saved : string → text) (calls : list call) (save_path : option string) :
  Forall draws calls →
  saved = SavedVisualization ∨ saved = SavedProjections →
  ∀ tr out,
    tr = map pyplot calls ++ trace (rest out0 saved calls save_path) →
    out = outcome (rest out0 saved calls save_path) →
    printed tr
    = match out, target save_path with
      | inr _, Some path => [saved path]
      | _, _ => []
      end
    ∧ (displays tr ≠ 0%nat → printed tr = []).
Proof.
  intros Hd Hsaved tr out -> ->.
  destruct (drawing_is_silent calls
              (trace (rest out0 saved calls save_path)) Hd)
    as (_ & -> & _ & _ & ->).
  destruct (rest_cases out0 saved calls save_path)
    as [[e ->]|[[e ->]|[(path & -> & Hpath & ->)|[Hsave ->]]]];
    cbn [trace outcome].
  - done.
  - done.
  - unfold target. rewrite (truthy_true _ Hpath). done.
  - unfold target. rewrite (proj2 (truthy_false save_path) Hsave). done.
Qed.

(** X11. The statistics printer never calls matplotlib.  Each renderer
    prints one line at most, its own confirmation with the path given, and
    it prints it exactly when it completes with a save path that is not
    empty; when it shows the figure it prints nothing. *)
Theorem statistics_and_rendering_are_separate
    `{NumpyStats} `{NumpyTrig} `{Matplotlib}
    (positions : list Position.t) (metadata : Metadata.t)
    (show_confidence : bool) (save_path : option string) :
  rendering (trace (print_statistics positions metadata)) = []
  ∧ printed (trace (visualize_3d positions metadata show_confidence save_path))
    = match outcome (visualize_3d positions metadata show_confidence
                       save_path),
            target save_path with
      | inr _, Some path => [SavedVisualization path]
      | _, _ => []
      end
  ∧ printed (trace (visualize_2d_projections positions metadata save_path))
    = match outcome (visualize_2d_projections positions metadata save_path),
            target save_path with
      | inr _, Some path => [SavedProjections path]
      | _, _ => []
      end
  ∧ (displays
       (trace (visualize_3d positions metadata show_confidence save_path))
     ≠ 0%nat →
     printed
       (trace (visualize_3d positions metadata show_confidence save_path))
     = [])
  ∧ (displays
       (trace (visualize_2d_projections positions metadata save_path))
     ≠ 0%nat →
     printed (trace (visualize_2d_projections positions metadata save_path))
     = []).
Proof.
  destruct (draw_3d_figure positions metadata show_confidence)
    as (out0 & Hdraw).
  destruct (visualize_3d_run creates_figure positions metadata
              show_confidence save_path _ _ Hdraw)
    as (calls3 & Hd3 & _ & ->).
  destruct (visualize_2d_projections_run creates_figure positions metadata
              save_path _ _ (draw_2d_figure positions metadata))
    as (calls2 & Hd2 & _ & ->).
  destruct (renderer_prints out0 SavedVisualization calls3 save_path Hd3
              (or_introl eq_refl) _ _ eq_refl eq_refl) as [Hp3 Hs3].
  destruct (renderer_prints (inr tt) SavedProjections calls2 save_path Hd2
              (or_intror eq_refl) _ _ eq_refl eq_refl) as [Hp2 Hs2].
  cbn [trace outcome]. split; [|done].
  rewrite print_statistics_run. apply rendering_stdout.
Qed.

(** ** The command line, on every input *)

(** X12. [main] completes exactly when the file loads, the statistics, if
    they are to be printed, complete ([total_leds] is not zero, neither
    percentage overflows and there is at least one record), and the
    renderer chosen, if any, completes.  A failed load ends the run right
    after the [Loading] message, with the loader's exception. *)
Theorem main_completes_iff `{NumpyStats} `{NumpyTrig} `{Matplotlib}
    (load : string → exn + (list Position.t * Metadata.t)) (args : Args.t) :
  (outcome (main load args) = inr tt
   ↔ ∃ positions metadata,
       load (Args.json_file args) = inr (positions, metadata)
       ∧ (wants_statistics args = true →
          Metadata.total_leds metadata ≠ 0
          ∧ fits (100 * Metadata.num_observed metadata)
                 (Metadata.total_leds metadata) = true
          ∧ fits (100 * Metadata.num_predicted metadata)
                 (Metadata.total_leds metadata) = true
          ∧ positions ≠ [])
       ∧ (Args.stats args = false →
          outcome (if Args.projections args
                   then visualize_2d_projections positions metadata
                          (Args.save args)
                   else visualize_3d positions metadata
                          (Args.confidence args) (Args.save args))
          = inr tt))
  ∧ (∀ e : exn,
       load (Args.json_file args) = inl e →
       main load args = Io [stdout (Loading (Args.json_file args))] (inl e)).
Proof.
  split; [|apply main_not_loaded].
  destruct (load (Args.json_file args)) as [e|[positions metadata]] eqn:Hload.
  - rewrite (main_not_loaded _ _ _ Hload). cbn [outcome].
    split; [done|]. by intros (? & ? & ? & _).
  - rewrite (main_loaded _ _ _ _ Hload). cbn [outcome].
    rewrite chosen_statistics_run.
    transitivity
      ((wants_statistics args = true →
        Metadata.total_leds metadata ≠ 0
        ∧ fits (100 * Metadata.num_observed metadata)
               (Metadata.total_leds metadata) = true
        ∧ fits (100 * Metadata.num_predicted metadata)
               (Metadata.total_leds metadata) = true
        ∧ positions ≠ [])
       ∧ (Args.stats args = false →
          outcome (if Args.projections args
                   then visualize_2d_projections positions metadata
                          (Args.save args)
                   else visualize_3d positions metadata
                          (Args.confidence args) (Args.save args))
          = inr tt)).
    2: { split; [by eauto|]. by intros (? & ? & [= <- <-] & ?). }
    rewrite <- report_outcome_ok. unfold chosen_renderer.
    destruct (wants_statistics args); cbn [outcome].
    + destruct (report_outcome positions metadata) as [e|[]].
      * split; [done|]. by intros [Hok _]; specialize (Hok eq_refl).
      * destruct (Args.stats args); cbn [negb].
        -- split; [done|]. intros _. reflexivity.
        -- split; [by auto|]. intros [_ Hr]. by apply Hr.
    + destruct (Args.stats args); cbn [negb].
      * done.
      * split; [by auto|]. intros [_ Hr]. by apply Hr.
Qed.

(** X13. Once the data is loaded, [main] creates at most one figure.  It
    calls matplotlib not at all with [--stats], nor when the statistics it
    prints first fail: so a default run on a data set with no record, or
    with [total_leds] zero, draws nothing, while the same data with
    [--projections] or a save path is drawn.  Otherwise it creates the
    three panels with [--projections] and the 3D figure without, also when
    a later matplotlib call raises. *)
Theorem main_creates_one_figure `{NumpyStats} `{NumpyTrig} `{Matplotlib}
    (load : string → exn + (list Position.t * Metadata.t)) (args : Args.t)
    (positions : list Position.t) (metadata : Metadata.t) :
  load (Args.json_file args) = inr (positions, metadata) →
  (Args.stats args = true
   ∨ (wants_statistics args = true
      ∧ (Metadata.total_leds metadata = 0
         ∨ positions = []
         ∨ fits (100 * Metadata.num_observed metadata)
                (Metadata.total_leds metadata) = false
         ∨ fits (100 * Metadata.num_predicted metadata)
                (Metadata.total_leds metadata) = false)) →
   rendering (trace (main load args)) = [])
  ∧ (Args.stats args = false →
     (wants_statistics args = true →
      Metadata.total_leds metadata ≠ 0
      ∧ fits (100 * Metadata.num_observed metadata)
             (Metadata.total_leds metadata) = true
      ∧ fits (100 * Metadata.num_predicted metadata)
             (Metadata.total_leds metadata) = true
      ∧ positions ≠ []) →
     figures (trace (main load args))
     = [if Args.projections args then subplots 1 3 15 5 else figure 12 10]).
Proof.
  intros Hload. rewrite (main_loaded _ _ _ _ Hload). cbn [trace].
  rewrite chosen_statistics_run.
  change (stdout ?a :: stdout ?b :: ?l) with (map stdout [a; b] ++ l).
  rewrite !rendering_app, !figures_app, rendering_stdout, figures_stdout.
  cbn [app]. rewrite <- !report_outcome_ok.
  destruct (chosen_renderer_reads args positions metadata)
    as (_ & _ & Hfig).
  split.
  - intros [Hstats|[Hw Hfail]].
    + unfold wants_statistics, chosen_renderer. rewrite Hstats.
      cbn [orb negb trace outcome mret io_ret]. rewrite rendering_stdout.
      by destruct (report_outcome positions metadata).
    + rewrite Hw. cbn [trace outcome]. rewrite rendering_stdout.
      destruct (report_outcome positions metadata) as [e|[]] eqn:Hout;
        [done|].
      apply report_outcome_ok in Hout as (Ht & Ho & Hp & Hne).
      destruct Hfail as [?|[?|[?|?]]]; congruence.
  - intros Hstats Hok. rewrite Hstats in Hfig.
    destruct (wants_statistics args); cbn [trace outcome].
    + rewrite (Hok eq_refl), figures_stdout. done.
    + done.
Qed.

Lemma main_completes_iff_witness :
  outcome (@main sequential_stats series_trig quiet example_load
             (example_args None false false)) = inr tt
  ∧ @main sequential_stats series_trig quiet
      (λ _, inl (KeyError "positions")) (example_args None false false)
    = Io [stdout (Loading "led_positions.json")]
         (inl (KeyError "positions")).
Proof.
  split.
  - apply (proj1 (main_completes_iff (H := sequential_stats)
                    (H0 := series_trig) (H1 := quiet) example_load
                    (example_args None false false))).
    exists scenario_positions, (example_metadata 4).
    split; [reflexivity|]. split.
    + intros _. split; [discriminate|]. split; [reflexivity|].
      split; [reflexivity|discriminate].
    + intros _. vm_compute. reflexivity.
  - by apply (proj2 (main_completes_iff (H := sequential_stats)
                       (H0 := series_trig) (H1 := quiet)
                       (λ _, inl (KeyError "positions"))
                       (example_args None false false))).
Defined.

Lemma main_creates_one_figure_witness :
  rendering
    (trace (@main sequential_stats series_trig quiet
              (λ _, inr ([], example_metadata 4))
              (example_args None false false)))
  = []
  ∧ figures
      (trace (@main sequential_stats series_trig read_only
                (λ _, inr ([], example_metadata 4))
                (example_args (Some "out.png") true false)))
    = [subplots 1 3 15 5].
Proof.
  split.
  - apply (proj1 (main_creates_one_figure (H := sequential_stats)
                    (H0 := series_trig) (H1 := quiet)
                    (λ _, inr ([], example_metadata 4))
                    (example_args None false false) [] (example_metadata 4)
                    eq_refl)).
    right. split; [reflexivity|]. right. by left.
  - apply (proj2 (main_creates_one_figure (H := sequential_stats)
                    (H0 := series_trig) (H1 := read_only)
                    (λ _, inr ([], example_metadata 4))
                    (example_args (Some "out.png") true false) []
                    (example_metadata 4) eq_refl));
      [reflexivity|discriminate].
Defined.

(** X14. [--confidence] only matters to the 3D view: together with
    [--projections] or with [--stats] it changes nothing of what [main]
    does. *)
Theorem confidence_flag_only_colours_3d
    `{NumpyStats} `{NumpyTrig} `{Matplotlib}
    (load : string → exn + (list Position.t * Metadata.t))
    (file : string) (confidence confidence' : bool) (save : option string)
    (projections stats : bool) :
  projections = true ∨ stats = true →
  main load (Args.Make file confidence save projections stats)
  = main load (Args.Make file confidence' save projections stats).
Proof.
  intros Hflag. unfold main.
  cbn [Args.json_file Args.confidence Args.save Args.projections Args.stats].
  destruct (load file) as [e|[positions metadata]]; [done|].
  destruct Hflag as [-> | ->]; [|done]. by destruct stats.
Qed.

Lemma confidence_flag_only_colours_3d_witness :
  @main sequential_stats series_trig quiet example_load
    (Args.Make "led_positions.json" true None true false)
  = @main sequential_stats series_trig quiet example_load
      (Args.Make "led_positions.json" false None true false).
Proof.
  apply (confidence_flag_only_colours_3d (H := sequential_stats)
           (H0 := series_trig) (H1 := quiet)).
  by left.
Defined.

(** X15. Once the data is loaded, [main] first prints the [Loading]
    message and the number of records loaded (the length of [positions],
    not [total_leds]), then the statistics report if there is one, and
    only then calls matplotlib: from the first matplotlib call on, nothing
    is printed but the confirmation of a saved file. *)
Theorem main_reports_before_drawing `{NumpyStats} `{NumpyTrig} `{Matplotlib}
    (load : string → exn + (list Position.t * Metadata.t)) (args : Args.t)
    (positions : list Position.t) (metadata : Metadata.t) :
  load (Args.json_file args) = inr (positions, metadata) →
  ∃ (lines : list text) (drawing : list event),
    trace (main load args)
    = map stdout (Loading (Args.json_file args)
                  :: Loaded (length positions) :: lines)
      ++ drawing
    ∧ printed drawing = confirmations drawing
    ∧ statistics_printed drawing = false
    ∧ (statistics_printed (map stdout lines) = wants_statistics args).
Proof.
  intros Hload. rewrite (main_loaded _ _ _ _ Hload). cbn [trace].
  rewrite chosen_statistics_run.
  destruct (chosen_renderer_reads args positions metadata)
    as (Hp & Hs & _).
  destruct (wants_statistics args); cbn [trace outcome].
  - exists (report_lines positions metadata).
    destruct (report_outcome positions metadata) as [e|[]].
    + by exists [].
    + by exists (trace (chosen_renderer args positions metadata)).
  - by exists [], (trace (chosen_renderer args positions metadata)).
Qed.

Lemma main_reports_before_drawing_witness :
  ∃ (lines : list text) (drawing : list event),
    trace (@main sequential_stats series_trig quiet example_load
             (example_args None false false))
    = map stdout (Loading "led_positions.json" :: Loaded 4 :: lines)
      ++ drawing
    ∧ statistics_printed drawing = false.
Proof.
  destruct (main_reports_before_drawing (H := sequential_stats)
              (H0 := series_trig) (H1 := quiet) example_load
              (example_args None false false)
              scenario_positions (example_metadata 4) eq_refl)
    as (lines & drawing & Htr & _ & Hs & _).
  by exists lines, drawing.
Defined.
